(** * summarizer.py: the news summarisation pipeline

    A shallow embedding of [src/summarizer.py].  The script is one
    straight-line module body: load articles, filter them by content
    length, summarise the first few with a remote model, assemble one
    record per article, write the records to a JSON file and print a
    report.  Values the script handles come out of [json.load] /
    [response.json()], so they are modelled as the Python values a JSON
    parser produces.  Exceptions are explicit ([result]); the external
    world (HTTP endpoints, the sample file, the completion model) is a
    record of oracles, and the calls the script makes to it are logged in
    a trace of events.  Console output is not modelled, except where the
    expression being printed can raise. *)

From stdpp Require Import gmap strings list fin_maps pretty.
From Stdlib Require Import ZArith Lia Ascii.

Local Open Scope Z_scope.

(** ** Python values *)

(** A float as a JSON parser can produce it.  Only its class and whether
    it is zero are ever observed by the script (truth value). *)
Inductive pyfloat :=
| FNan
| FInf (negative : bool)
| FFinite (negative : bool) (mantissa : N) (exponent : Z).

(** A [str] is a [string], one [ascii] per character. *)
#[warnings="-register-all"]
Inductive pyval :=
| PNone
| PBool (b : bool)
| PInt (n : Z)
| PFloat (f : pyfloat)
| PStr (s : string)
| PList (l : list pyval)
| PDict (d : gmap string pyval).

(** ** Exceptions *)

Inductive exn_class :=
| AttributeError
| TypeError
| ValueError
| IndexError
| KeyError
| ExternalError.   (* anything raised by requests / json / openai *)

Inductive exn :=
| Exn (cls : exn_class) (msg : string)
| SystemExit (code : Z).

(** [str(e)] *)
Definition exn_str (e : exn) : string :=
  match e with
  | Exn _ msg => msg
  | SystemExit code => pretty code
  end.

Inductive result (A : Type) :=
| Ok (a : A)
| Raise (e : exn).
Arguments Ok {A} a.
Arguments Raise {A} e.

#[global] Instance result_ret : MRet result := λ A a, Ok a.
#[global] Instance result_bind : MBind result := λ A B k r,
  match r with
  | Ok a => k a
  | Raise e => Raise e
  end.

(** ** Built-ins on JSON values *)

Definition type_name (v : pyval) : string :=
  match v with
  | PNone => "NoneType"
  | PBool _ => "bool"
  | PInt _ => "int"
  | PFloat _ => "float"
  | PStr _ => "str"
  | PList _ => "list"
  | PDict _ => "dict"
  end.

(** [bool(v)], the test an [if v] or [v and ...] performs. *)
Definition truthy (v : pyval) : bool :=
  match v with
  | PNone => false
  | PBool b => b
  | PInt n => negb (n =? 0)
  | PFloat (FFinite _ m _) => negb (m =? 0)%N
  | PFloat _ => true
  | PStr s => negb (String.eqb s "")
  | PList l => negb (Nat.eqb (length l) 0)
  | PDict d => negb (Nat.eqb (size d) 0)
  end.

(** [len(v)] *)
Definition py_len (v : pyval) : result Z :=
  match v with
  | PStr s => Ok (Z.of_nat (String.length s))
  | PList l => Ok (Z.of_nat (length l))
  | PDict d => Ok (Z.of_nat (size d))
  | _ => Raise (Exn TypeError
                 ("object of type '" +:+ type_name v +:+ "' has no len()"))
  end.

(** [v.get(key, default)]: only a dict has the method. *)
Definition py_get (v : pyval) (key : string) (dflt : pyval) : result pyval :=
  match v with
  | PDict d => Ok (default dflt (d !! key))
  | _ => Raise (Exn AttributeError
                 ("'" +:+ type_name v +:+ "' object has no attribute 'get'"))
  end.

(** [isinstance(v, dict)], [isinstance(v, list)], [key in v] and [v[key]]
    as the sample loader uses them. *)
Definition isinstance_dict (v : pyval) : bool :=
  match v with PDict _ => true | _ => false end.

Definition isinstance_list (v : pyval) : bool :=
  match v with PList _ => true | _ => false end.

Definition py_in (key : string) (v : pyval) : bool :=
  match v with
  | PDict d => match d !! key with Some _ => true | None => false end
  | _ => false
  end.

Definition py_getitem (v : pyval) (key : string) : result pyval :=
  match v with
  | PDict d =>
      match d !! key with
      | Some x => Ok x
      | None => Raise (Exn KeyError ("'" +:+ key +:+ "'"))
      end
  | _ => Raise (Exn TypeError
                 ("'" +:+ type_name v +:+ "' object is not subscriptable"))
  end.

(** [s.strip()]: drop leading and trailing white space. *)
Definition is_space (c : ascii) : bool :=
  let n := N_of_ascii c in
  ((9 <=? n) && (n <=? 13) || (28 <=? n) && (n <=? 32)
   || (n =? 133) || (n =? 160))%N.

Fixpoint lstrip (s : string) : string :=
  match s with
  | EmptyString => EmptyString
  | String c rest => if is_space c then lstrip rest else s
  end.

Fixpoint rstrip (s : string) : string :=
  match s with
  | EmptyString => EmptyString
  | String c rest =>
      match rstrip rest with
      | EmptyString => if is_space c then EmptyString else String c EmptyString
      | kept => String c kept
      end
  end.

Definition strip (s : string) : string := rstrip (lstrip s).

(** [for x in v]: the items a [for] loop visits.  A dict yields its keys;
    their order here is the map's, and every one of them is a [str]. *)
Definition py_iter (v : pyval) : result (list pyval) :=
  match v with
  | PList l => Ok l
  | PStr s => Ok ((λ c, PStr (String c "")) <$> String.list_ascii_of_string s)
  | PDict d => Ok ((λ kv, PStr kv.1) <$> map_to_list d)
  | _ => Raise (Exn TypeError
                 ("'" +:+ type_name v +:+ "' object is not iterable"))
  end.

(** [xs[:n]] on a list, with Python's reading of a negative bound. *)
Definition slice_to {A} (n : Z) (xs : list A) : list A :=
  if 0 <=? n then take (Z.to_nat n) xs
  else take (length xs - Z.to_nat (- n)) xs.

(** [v[:n]] for a constant [n >= 0]: only sequences can be sliced (a dict
    rejects the slice as a key). *)
Definition py_slice_to (v : pyval) (n : nat) : result pyval :=
  match v with
  | PStr s => Ok (PStr (String.substring 0 n s))
  | PList l => Ok (PList (take n l))
  | PDict _ => Raise (Exn TypeError "unhashable type: 'slice'")
  | _ => Raise (Exn TypeError
                 ("'" +:+ type_name v +:+ "' object is not subscriptable"))
  end.

(** Whether [', '.join(v)] raises; the joined text is only printed.  A
    string is joined by characters and a dict by keys, which are strings. *)
Fixpoint first_non_str (i : nat) (l : list pyval) : option (nat * pyval) :=
  match l with
  | [] => None
  | PStr _ :: rest => first_non_str (S i) rest
  | x :: _ => Some (i, x)
  end.

Definition py_join_check (v : pyval) : result () :=
  match v with
  | PStr _ | PDict _ => Ok ()
  | PList l =>
      match first_non_str 0 l with
      | None => Ok ()
      | Some (i, x) =>
          Raise (Exn TypeError
                   ("sequence item " +:+ pretty i
                    +:+ ": expected str instance, " +:+ type_name x
                    +:+ " found"))
      end
  | _ => Raise (Exn TypeError "can only join an iterable")
  end.

(** ** Configuration (lines 37-42) *)

Record config := {
  NDH_API_KEY : string;
  OPENAI_API_KEY : string;
  MIN_CONTENT_LENGTH : Z;
  NUM_ARTICLES_TO_PROCESS : Z
}.

Definition source_config : config := {|
  NDH_API_KEY := "";
  OPENAI_API_KEY := "";
  MIN_CONTENT_LENGTH := 300;
  NUM_ARTICLES_TO_PROCESS := 5
|}.

(** ** Step 2: the content filter (lines 109-113) *)

Fixpoint filter_loop (min_len : Z) (filtered_articles articles : list pyval)
  : result (list pyval) :=
  match articles with
  | [] => Ok filtered_articles
  | article :: rest =>
      content ← py_get article "content" (PStr "");
      keep ← (if truthy content
              then n ← py_len content; Ok (min_len <=? n)
              else Ok false);
      filter_loop min_len
        (if keep : bool then filtered_articles ++ [article]
         else filtered_articles)
        rest
  end.

Definition filter_articles (min_len : Z) (articles : list pyval)
  : result (list pyval) :=
  filter_loop min_len [] articles.

(** ** Summary records (the dict built at lines 192-202) *)

Record summary_record := {
  r_id : pyval;
  r_title : pyval;
  r_source : pyval;
  r_published : pyval;
  r_url : pyval;
  r_language : pyval;
  r_topics : pyval;
  r_original_content_length : Z;
  r_ai_summary : string
}.

(** ** The outside world *)

(** What [client.chat.completions.create] does: it raises some
    [Exception], or answers with a list of choices, each carrying a
    message whose content is a string or [None]. *)
Inductive reply :=
| CallRaises (cls : exn_class) (msg : string)
| CallReturns (choices : list (option string)).

Record world := {
  (** lines 67-69: the GET to the news endpoint, [raise_for_status], [.json()] *)
  news_api : result pyval;
  (** line 80 and lines 90-91: [None] when the sample file is absent,
      otherwise what [json.load] makes of it *)
  sample_on_disk : option (result pyval);
  (** lines 83-84: the GET for the sample data and [raise_for_status];
      inside, what [response.json()] gives at line 86 *)
  sample_download : result (result pyval);
  (** line 154: the answer to the n-th completion request *)
  completion : nat → pyval → pyval → reply
}.

Inductive event :=
| HttpGetNews (api_key : string)
| HttpGetSample
| CreateSampleFile
| WriteSampleFile (data : pyval)
| ReadSampleFile
| ChatCompletion (content title : pyval)
| WriteOutputFile (records : list summary_record).

(** A piece of the script: the calls it made to the outside, and how it
    ended.  [exit(1)] is [SystemExit(1)] propagating to the top. *)
Definition script (A : Type) : Type := list event * result A.

#[global] Instance script_ret : MRet script := λ A a, ([], Ok a).
#[global] Instance script_bind : MBind script := λ A B k m,
  match m with
  | (t, Ok a) => let '(t', r) := k a in (t ++ t', r)
  | (t, Raise e) => (t, Raise e)
  end.

Definition emit (e : event) : script () := ([e], Ok ()).
Definition lift {A} (r : result A) : script A := ([], r).
Definition exit {A} (code : Z) : script A := ([], Raise (SystemExit code)).

Definition trace {A} (m : script A) : list event := m.1.
Definition outcome {A} (m : script A) : result A := m.2.

(** ** Step 1: loading the articles (lines 53-101) *)

(** The sample file is opened for writing (line 85) before the response
    is parsed, so a response that is not JSON leaves an empty file
    behind.  Reading the file just written gives back the downloaded
    value. *)

(** Lines 94-99: the two accepted shapes of the sample data. *)
Definition load_sample_data (data : pyval) : result pyval :=
  if isinstance_dict data && py_in "data" data then py_getitem data "data"
  else if isinstance_list data then Ok data
  else Raise (Exn ValueError "Unexpected sample data format").

(** Line 53: [if NDH_API_KEY and NDH_API_KEY != "your_ndh_api_key_here"]. *)
Definition ndh_key_provided (cfg : config) : bool :=
  negb (String.eqb (NDH_API_KEY cfg) "")
  && negb (String.eqb (NDH_API_KEY cfg) "your_ndh_api_key_here").

Definition fetch_articles (cfg : config) (w : world) : script pyval :=
  if ndh_key_provided cfg then
    _ ← emit (HttpGetNews (NDH_API_KEY cfg));
    data ← lift (news_api w);
    articles ← lift (py_get data "data" (PList []));
    _ ← lift (py_len articles);
    mret articles
  else
    data ← match sample_on_disk w with
           | None =>
               _ ← emit HttpGetSample;
               response ← lift (sample_download w);
               _ ← emit CreateSampleFile;
               downloaded ← lift response;
               _ ← emit (WriteSampleFile downloaded);
               _ ← emit ReadSampleFile;
               mret downloaded
           | Some parsed =>
               _ ← emit ReadSampleFile;
               lift parsed
           end;
    articles ← lift (load_sample_data data);
    _ ← lift (py_len articles);
    mret articles.

(** ** Step 3: the summariser (lines 130-174) *)

(** Line 130: [if not OPENAI_API_KEY or OPENAI_API_KEY == "your_openai_api_key_here"]. *)
Definition openai_key_missing (cfg : config) : bool :=
  String.eqb (OPENAI_API_KEY cfg) ""
  || String.eqb (OPENAI_API_KEY cfg) "your_openai_api_key_here".

(** Lines 153-174.  Everything between [try] and [except] is caught:
    the call itself, [choices[0]] on an empty list, [.strip()] on a
    [None] content. *)
Definition summarize_article (client : pyval → pyval → reply)
    (content title : pyval) : script string :=
  _ ← emit (ChatCompletion content title);
  let attempt : result string :=
    choices ← match client content title with
              | CallRaises cls msg => Raise (Exn cls msg)
              | CallReturns choices => Ok choices
              end;
    first ← match choices with
            | [] => Raise (Exn IndexError "list index out of range")
            | c :: _ => Ok c
            end;
    text ← match first with
           | None => Raise (Exn AttributeError
                              "'NoneType' object has no attribute 'strip'")
           | Some text => Ok text
           end;
    Ok (strip text) in
  mret match attempt with
       | Ok summary => summary
       | Raise e => "Error generating summary: " +:+ exn_str e
       end.

(** ** Step 4: the result assembler (lines 181-202) *)

Definition create_summary_output (article : pyval) (summary : string)
  : result summary_record :=
  id ← py_get article "id" PNone;
  title ← py_get article "title" PNone;
  source ← py_get article "source_title" PNone;
  published ← py_get article "pub_date" PNone;
  url ← py_get article "article_link" PNone;
  language ← py_get article "language" PNone;
  topics ← py_get article "topics" (PList []);
  content ← py_get article "content" (PStr "");
  original_content_length ← py_len content;
  Ok {| r_id := id; r_title := title; r_source := source;
        r_published := published; r_url := url; r_language := language;
        r_topics := topics;
        r_original_content_length := original_content_length;
        r_ai_summary := summary |}.

(** ** Step 5: the processing loop (lines 213-228) *)

Fixpoint process_loop (llm : nat → pyval → pyval → reply) (i : nat)
    (articles : list pyval) (summarized_articles : list summary_record)
  : script (list summary_record) :=
  match articles with
  | [] => mret summarized_articles
  | article :: rest =>
      shown ← lift (py_get article "title" (PStr "N/A"));
      _ ← lift (py_slice_to shown 60);
      content ← lift (py_get article "content" (PStr ""));
      title ← lift (py_get article "title" (PStr ""));
      summary ← summarize_article (llm i) content title;
      output ← lift (create_summary_output article summary);
      process_loop llm (S i) rest (summarized_articles ++ [output])
  end.

(** ** Step 7: the report (lines 258-274), as far as it can raise *)

Fixpoint report (summarized_articles : list summary_record) : result () :=
  match summarized_articles with
  | [] => Ok ()
  | article :: rest =>
      _ ← py_slice_to (r_published article) 10;
      _ ← (if truthy (r_topics article)
           then py_join_check (r_topics article)
           else Ok ());
      report rest
  end.

(** ** The script from step 2 on, and the whole script *)

Definition process (cfg : config) (w : world) (articles : pyval) : script () :=
  items ← lift (py_iter articles);
  filtered_articles ← lift (filter_articles (MIN_CONTENT_LENGTH cfg) items);
  if Nat.eqb (length filtered_articles) 0 then exit 1
  else if openai_key_missing cfg then exit 1
  else
    summarized_articles ←
      process_loop (completion w) 0
        (slice_to (NUM_ARTICLES_TO_PROCESS cfg) filtered_articles) [];
    _ ← emit (WriteOutputFile summarized_articles);
    lift (report summarized_articles).

Definition main (cfg : config) (w : world) : script () :=
  articles ← fetch_articles cfg w;
  process cfg w articles.

(** ** Vocabulary of the specification *)

(** The character count of an article's [content] field, 0 when the key
    is absent; undefined when the field is not text. *)
Definition content_chars (d : gmap string pyval) : option Z :=
  match d !! "content" with
  | None => Some 0
  | Some (PStr c) => Some (Z.of_nat (String.length c))
  | Some _ => None
  end.

(** An article as the news source delivers it, as far as the filter
    looks: a mapping whose [content] is absent, null or text. *)
Definition has_text_content (article : pyval) : bool :=
  match article with
  | PDict d =>
      match d !! "content" with
      | None | Some PNone | Some (PStr _) => true
      | Some _ => false
      end
  | _ => false
  end.

(** The article has non-empty content of at least [min_len] characters. *)
Definition qualifies (min_len : Z) (article : pyval) : bool :=
  match article with
  | PDict d =>
      match d !! "content" with
      | Some (PStr c) =>
          negb (String.eqb c "") && (min_len <=? Z.of_nat (String.length c))
      | _ => false
      end
  | _ => false
  end.

Fixpoint count_qualifying (min_len : Z) (articles : list pyval) : nat :=
  match articles with
  | [] => 0
  | article :: rest =>
      ((if qualifies min_len article then 1 else 0)
       + count_qualifying min_len rest)%nat
  end.

(** The record was assembled from the article, with some summary. *)
Definition assembled_from (article : pyval) (r : summary_record) : Prop :=
  ∃ summary, create_summary_output article summary = Ok r.

(** What the loop hands to the summariser for an article (line 222-223). *)
Definition field_or (article : pyval) (key : string) (dflt : pyval) : pyval :=
  match article with
  | PDict d => default dflt (d !! key)
  | _ => dflt
  end.

(** The title, when there is one, can be cut for the progress line. *)
Definition title_sliceable (article : pyval) : bool :=
  match field_or article "title" (PStr "N/A") with
  | PStr _ | PList _ => true
  | _ => false
  end.

(** Reading a trace: the completion requests made, and the records the
    output file holds at the end (the last write wins). *)
Definition is_completion (e : event) : bool :=
  match e with ChatCompletion _ _ => true | _ => false end.

Definition is_news_get (e : event) : bool :=
  match e with HttpGetNews _ => true | _ => false end.

Definition llm_calls (t : list event) : nat :=
  length (List.filter is_completion t).

Fixpoint output_file (t : list event) : option (list summary_record) :=
  match t with
  | [] => None
  | e :: rest =>
      match output_file rest with
      | Some records => Some records
      | None =>
          match e with
          | WriteOutputFile records => Some records
          | _ => None
          end
      end
  end.

Definition is_output_write (e : event) : bool :=
  match e with WriteOutputFile _ => true | _ => false end.

(** The article went through the filter's test: it is a mapping whose
    content is true, has a length, and that length reaches [min_len]. *)
Definition passed (min_len : Z) (article : pyval) : Prop :=
  ∃ d n, article = PDict d
         ∧ truthy (default (PStr "") (d !! "content")) = true
         ∧ py_len (default (PStr "") (d !! "content")) = Ok n
         ∧ min_len ≤ n.

(** Editing one of the two credential constants. *)
Definition with_ndh_key (key : string) (cfg : config) : config :=
  {| NDH_API_KEY := key;
     OPENAI_API_KEY := OPENAI_API_KEY cfg;
     MIN_CONTENT_LENGTH := MIN_CONTENT_LENGTH cfg;
     NUM_ARTICLES_TO_PROCESS := NUM_ARTICLES_TO_PROCESS cfg |}.

Definition with_openai_key (key : string) (cfg : config) : config :=
  {| NDH_API_KEY := NDH_API_KEY cfg;
     OPENAI_API_KEY := key;
     MIN_CONTENT_LENGTH := MIN_CONTENT_LENGTH cfg;
     NUM_ARTICLES_TO_PROCESS := NUM_ARTICLES_TO_PROCESS cfg |}.

(** Sample inputs: a text of [n] characters, and an article made of a
    list of fields. *)
Fixpoint text_of_length (n : nat) : string :=
  match n with
  | O => EmptyString
  | S m => String "a" (text_of_length m)
  end.

Definition article_of (fields : list (string * pyval)) : pyval :=
  PDict (list_to_map fields).

Definition short_article : pyval :=
  article_of [("id", PStr "a1"); ("title", PStr "Brief");
              ("pub_date", PStr "2025-01-01T09:00:00Z");
              ("content", PStr (text_of_length 250))].

Definition long_article : pyval :=
  article_of [("id", PStr "a2"); ("title", PStr "Feature");
              ("pub_date", PStr "2025-01-02T09:00:00Z");
              ("topics", PList [PStr "politics"]);
              ("content", PStr (text_of_length 400))].

Definition other_long_article : pyval :=
  article_of [("id", PStr "a3"); ("title", PStr "Report");
              ("pub_date", PStr "2025-01-03T09:00:00Z");
              ("content", PStr (text_of_length 320))].

(** A configuration with the OpenAI key filled in, and a world whose
    sample file holds the given value and whose completion endpoint
    fails on the first request and answers the later ones. *)
Definition demo_config : config :=
  with_openai_key "sk-demo" source_config.

Definition demo_world (sample : pyval) : world := {|
  news_api := Raise (Exn ExternalError "connection refused");
  sample_on_disk := Some (Ok sample);
  sample_download := Raise (Exn ExternalError "connection refused");
  completion := λ n _ _,
    match n with
    | O => CallRaises ExternalError "rate limit exceeded"
    | S _ => CallReturns [Some "  A short summary.  "]
    end
|}.

(** ** Vocabulary for the further properties *)

(** [len(v)] is defined. *)
Definition sized (v : pyval) : bool :=
  match v with
  | PStr _ | PList _ | PDict _ => true
  | _ => false
  end.

(** [v[:n]] is defined. *)
Definition sliceable (v : pyval) : bool :=
  match v with
  | PStr _ | PList _ => true
  | _ => false
  end.

(** [', '.join(v)] is defined. *)
Definition joinable (v : pyval) : bool :=
  match v with
  | PStr _ | PDict _ => true
  | PList l => forallb (λ x, match x with PStr _ => true | _ => false end) l
  | _ => false
  end.

(** The filter's test goes through on the article: it is a mapping, and
    its content is false or has a length. *)
Definition filterable (article : pyval) : bool :=
  match article with
  | PDict d =>
      let content := default (PStr "") (d !! "content") in
      negb (truthy content) || sized content
  | _ => false
  end.

(** The filter's test goes through and keeps the article. *)
Definition kept_by (min_len : Z) (article : pyval) : bool :=
  match article with
  | PDict d =>
      let content := default (PStr "") (d !! "content") in
      truthy content
      && match py_len content with
         | Ok n => min_len <=? n
         | Raise _ => false
         end
  | _ => false
  end.

(** The assembler goes through on the article. *)
Definition assemblable (article : pyval) : bool :=
  match article with
  | PDict d => sized (default (PStr "") (d !! "content"))
  | _ => false
  end.

(** The report's block for the record prints without raising. *)
Definition reportable (r : summary_record) : bool :=
  sliceable (r_published r)
  && (negb (truthy (r_topics r)) || joinable (r_topics r)).

(** The completion request the loop sends for an article. *)
Definition request_of (article : pyval) : event :=
  ChatCompletion (field_or article "content" (PStr ""))
                 (field_or article "title" (PStr "")).

(** Everything of a record but the summary text. *)
Definition metadata (r : summary_record)
  : pyval * pyval * pyval * pyval * pyval * pyval * pyval * Z :=
  (r_id r, r_title r, r_source r, r_published r, r_url r, r_language r,
   r_topics r, r_original_content_length r).

Definition is_sample_event (e : event) : bool :=
  match e with
  | HttpGetSample | CreateSampleFile | WriteSampleFile _ | ReadSampleFile =>
      true
  | _ => false
  end.

(** The same world with another completion endpoint. *)
Definition with_completion (llm : nat → pyval → pyval → reply) (w : world)
  : world :=
  {| news_api := news_api w;
     sample_on_disk := sample_on_disk w;
     sample_download := sample_download w;
     completion := llm |}.

(** A trace with the summary texts blanked out of the records written. *)
Definition without_summary (r : summary_record) : summary_record :=
  {| r_id := r_id r; r_title := r_title r; r_source := r_source r;
     r_published := r_published r; r_url := r_url r;
     r_language := r_language r; r_topics := r_topics r;
     r_original_content_length := r_original_content_length r;
     r_ai_summary := "" |}.

Definition blank_summaries (e : event) : event :=
  match e with
  | WriteOutputFile records => WriteOutputFile (without_summary <$> records)
  | _ => e
  end.

(** ** The content filter *)

Lemma filter_step_text min_len article :
  has_text_content article = true →
  (content ← py_get article "content" (PStr "");
   if truthy content then n ← py_len content; Ok (min_len <=? n)
   else Ok false)
  = Ok (qualifies min_len article).
Proof.
  destruct article as [| | | | |l|d]; simpl; try discriminate.
  destruct (d !! "content") as [[| | | |c| |]|] eqn:E; simpl;
    try discriminate; try reflexivity.
  intros _. destruct (String.eqb c ""); reflexivity.
Qed.

Lemma filter_loop_text min_len articles : ∀ kept,
  Forall (λ a, has_text_content a = true) articles →
  filter_loop min_len kept articles
  = Ok (kept ++ List.filter (qualifies min_len) articles).
Proof.
  induction articles as [|a rest IH]; intros kept Hall.
  - simpl. by rewrite app_nil_r.
  - inversion Hall as [|? ? Ha Hrest]; subst.
    pose proof (filter_step_text min_len a Ha) as Hstep.
    cbn [filter_loop List.filter].
    destruct (py_get a "content" (PStr "")) as [content|e]; simpl in *;
      [|discriminate].
    destruct (if truthy content then _ else _) as [keep|e]; simpl in *;
      [|discriminate].
    injection Hstep as ->. rewrite IH by done.
    destruct (qualifies min_len a); [by rewrite <- app_assoc | done].
Qed.

Lemma filter_length_count min_len articles :
  length (List.filter (qualifies min_len) articles)
  = count_qualifying min_len articles.
Proof.
  induction articles as [|a rest IH]; simpl; [done|].
  destruct (qualifies min_len a); simpl; by rewrite IH.
Qed.

Lemma filter_sublist {A} (f : A → bool) (l : list A) :
  sublist (List.filter f l) l.
Proof.
  induction l as [|x l IH]; simpl; [constructor|].
  destruct (f x); by constructor.
Qed.

(** C1. On every list of articles (mappings whose content is absent,
    null or text) and for every threshold, the filter returns exactly
    the articles whose content is non-empty and at least threshold
    characters long, in input order; so it is a subsequence of the input
    and its length is the number of qualifying articles. *)
Theorem content_filter_exact (min_len : Z) (articles : list pyval) :
  Forall (λ a, has_text_content a = true) articles →
  ∃ kept,
    filter_articles min_len articles = Ok kept
    ∧ kept = List.filter (qualifies min_len) articles
    ∧ sublist kept articles
    ∧ length kept = count_qualifying min_len articles.
Proof.
  intros Hall. exists (List.filter (qualifies min_len) articles).
  split; [|split; [done|split]].
  - unfold filter_articles. by rewrite filter_loop_text.
  - apply filter_sublist.
  - apply filter_length_count.
Qed.

Lemma content_filter_exact_witness :
  ∃ kept,
    filter_articles 300
      [article_of [("id", PInt 1); ("content", PStr (text_of_length 250))];
       article_of [("id", PInt 2); ("content", PStr (text_of_length 400))]]
    = Ok kept
    ∧ length kept = 1%nat.
Proof.
  destruct (content_filter_exact 300
    [article_of [("id", PInt 1); ("content", PStr (text_of_length 250))];
     article_of [("id", PInt 2); ("content", PStr (text_of_length 400))]])
    as (kept & Hrun & _ & _ & Hlen).
  - repeat constructor.
  - exists kept. split; [exact Hrun|]. rewrite Hlen. vm_compute. reflexivity.
Defined.

(** ** The result assembler *)

Lemma create_summary_output_dict d summary n :
  py_len (default (PStr "") (d !! "content")) = Ok n →
  create_summary_output (PDict d) summary
  = Ok {| r_id := default PNone (d !! "id");
          r_title := default PNone (d !! "title");
          r_source := default PNone (d !! "source_title");
          r_published := default PNone (d !! "pub_date");
          r_url := default PNone (d !! "article_link");
          r_language := default PNone (d !! "language");
          r_topics := default (PList []) (d !! "topics");
          r_original_content_length := n;
          r_ai_summary := summary |}.
Proof.
  intros Hlen. unfold create_summary_output. simpl. by rewrite Hlen.
Qed.

Lemma content_chars_len d n :
  content_chars d = Some n →
  py_len (default (PStr "") (d !! "content")) = Ok n.
Proof.
  unfold content_chars.
  destruct (d !! "content") as [[| | | |c| |]|]; simpl;
    intros [= <-] || discriminate; reflexivity.
Qed.

(** C3. The record assembled from an article carries, as
    [original_content_length], the number of characters of the article's
    [content] field, and 0 when the article has no such field. *)
Theorem original_content_length_is_content_chars
    (d : gmap string pyval) (summary : string) (n : Z) :
  content_chars d = Some n →
  ∃ r, create_summary_output (PDict d) summary = Ok r
       ∧ r_original_content_length r = n.
Proof.
  intros Hn. apply content_chars_len in Hn.
  eexists. split; [by apply create_summary_output_dict|done].
Qed.

Lemma original_content_length_is_content_chars_witness :
  (∃ r, create_summary_output
          (article_of [("title", PStr "News"); ("content", PStr "abcde")])
          "short" = Ok r
        ∧ r_original_content_length r = 5)
  ∧ (∃ r, create_summary_output (article_of [("title", PStr "News")])
            "short" = Ok r
          ∧ r_original_content_length r = 0).
Proof.
  split.
  - apply (original_content_length_is_content_chars
             (list_to_map [("title", PStr "News"); ("content", PStr "abcde")])
             "short" 5).
    vm_compute. reflexivity.
  - apply (original_content_length_is_content_chars
             (list_to_map [("title", PStr "News")]) "short" 0).
    vm_compute. reflexivity.
Defined.

(** C4, as the specification has it, fails: an article without a
    [title] key yields a record whose title is [None], not the empty
    string. *)
Lemma missing_title_is_none :
  ∃ r, create_summary_output (PDict ∅) "summary" = Ok r
       ∧ r_title r = PNone
       ∧ r_title r ≠ PStr "".
Proof.
  eexists. split; [reflexivity|]. split; [reflexivity|discriminate].
Qed.

(** C4, amended.  The assembler does not raise on any article whose
    content is absent or text, whatever other keys are missing; a
    missing [id], [title], [source_title], [pub_date], [article_link] or
    [language] becomes [None] in the record, a missing [topics] the
    empty list, and a missing [content] counts as length 0. *)
Theorem missing_keys_default (d : gmap string pyval) (summary : string) (n : Z) :
  content_chars d = Some n →
  ∃ r, create_summary_output (PDict d) summary = Ok r
       ∧ (d !! "id" = None → r_id r = PNone)
       ∧ (d !! "title" = None → r_title r = PNone)
       ∧ (d !! "source_title" = None → r_source r = PNone)
       ∧ (d !! "pub_date" = None → r_published r = PNone)
       ∧ (d !! "article_link" = None → r_url r = PNone)
       ∧ (d !! "language" = None → r_language r = PNone)
       ∧ (d !! "topics" = None → r_topics r = PList [])
       ∧ (d !! "content" = None → r_original_content_length r = 0)
       ∧ r_ai_summary r = summary.
Proof.
  intros Hn. pose proof (content_chars_len d n Hn) as Hlen.
  eexists. split; [by apply create_summary_output_dict|].
  simpl. repeat split; try (by intros ->).
  intros Hc. unfold content_chars in Hn. rewrite Hc in Hn. congruence.
Qed.

Lemma missing_keys_default_witness :
  ∃ r, create_summary_output (PDict ∅) "summary" = Ok r
       ∧ r_id r = PNone ∧ r_topics r = PList []
       ∧ r_original_content_length r = 0.
Proof.
  destruct (missing_keys_default ∅ "summary" 0) as (r & Hr & Hid & _ & _ & _ & _ & _ & Ht & Hc & _).
  - reflexivity.
  - exists r. split; [exact Hr|].
    split; [by apply Hid|]. split; [by apply Ht|by apply Hc].
Defined.

(** ** The sample loader *)

(** C9. The sample loader takes the value under [data] when the parsed
    file is an object with that key, takes a bare list as it is, and
    raises [ValueError] on every other shape, yielding no articles. *)
Theorem load_sample_data_shapes (data : pyval) :
  load_sample_data data
  = match data with
    | PDict d =>
        match d !! "data" with
        | Some articles => Ok articles
        | None => Raise (Exn ValueError "Unexpected sample data format")
        end
    | PList l => Ok (PList l)
    | _ => Raise (Exn ValueError "Unexpected sample data format")
    end.
Proof.
  unfold load_sample_data.
  destruct data as [| | | | | |d]; try reflexivity.
  simpl. by destruct (d !! "data").
Qed.

(** ** Reasoning about scripts *)

Lemma trace_bind {A B} (m : script A) (k : A → script B) :
  trace (m ≫= k)
  = trace m ++ match outcome m with
               | Ok a => trace (k a)
               | Raise _ => []
               end.
Proof.
  destruct m as [t [a|e]]; unfold mbind, script_bind, trace, outcome; simpl.
  - by destruct (k a).
  - by rewrite app_nil_r.
Qed.

Lemma outcome_bind {A B} (m : script A) (k : A → script B) :
  outcome (m ≫= k)
  = match outcome m with
    | Ok a => outcome (k a)
    | Raise e => Raise e
    end.
Proof.
  destruct m as [t [a|e]]; unfold mbind, script_bind, trace, outcome; simpl;
    [by destruct (k a)|done].
Qed.

Lemma lift_bind {A B} (r : result A) (k : A → script B) :
  lift r ≫= k = match r with Ok a => k a | Raise e => ([], Raise e) end.
Proof.
  destruct r as [a|e]; unfold mbind, script_bind, lift; simpl;
    [by destruct (k a)|done].
Qed.

Lemma llm_calls_app t1 t2 : llm_calls (t1 ++ t2) = (llm_calls t1 + llm_calls t2)%nat.
Proof. unfold llm_calls. by rewrite List.filter_app, length_app. Qed.

Lemma output_file_app t1 t2 :
  output_file (t1 ++ t2)
  = match output_file t2 with
    | Some records => Some records
    | None => output_file t1
    end.
Proof.
  induction t1 as [|e t1 IH]; simpl.
  - by destruct (output_file t2).
  - rewrite IH. by destruct (output_file t2).
Qed.

Lemma no_write_no_output t :
  Forall (λ e, is_output_write e = false) t → output_file t = None.
Proof.
  induction 1 as [|e t He _ IH]; simpl; [done|].
  rewrite IH. by destruct e.
Qed.

Lemma no_completion_no_calls t :
  Forall (λ e, is_completion e = false) t → llm_calls t = 0%nat.
Proof.
  unfold llm_calls. induction 1 as [|e t He _ IH]; simpl; [done|].
  by rewrite He.
Qed.

(** ** What the filter keeps, on any input *)

Lemma filter_loop_kept min_len articles : ∀ acc out,
  filter_loop min_len acc articles = Ok out →
  ∃ kept, out = acc ++ kept
          ∧ sublist kept articles
          ∧ Forall (passed min_len) kept.
Proof.
  induction articles as [|a rest IH]; intros acc out Hrun.
  - injection Hrun as <-. exists []. by rewrite app_nil_r.
  - cbn [filter_loop] in Hrun.
    destruct a as [| | | | | |d]; try discriminate.
    simpl in Hrun.
    set (content := default (PStr "") (d !! "content")) in *.
    destruct (truthy content) eqn:Htruthy; simpl in Hrun.
    + destruct (py_len content) as [n|e] eqn:Hlen; simpl in Hrun;
        [|discriminate].
      destruct (min_len <=? n) eqn:Hmin.
      * apply IH in Hrun as (kept & -> & Hsub & Hall).
        exists (PDict d :: kept). rewrite <- app_assoc.
        split; [done|]. split; [by constructor|].
        constructor; [|done]. exists d, n. repeat split; try done. lia.
      * apply IH in Hrun as (kept & -> & Hsub & Hall).
        exists kept. split; [done|]. split; [by constructor|done].
    + apply IH in Hrun as (kept & -> & Hsub & Hall).
      exists kept. split; [done|]. split; [by constructor|done].
Qed.

Lemma filter_articles_kept min_len articles filtered :
  filter_articles min_len articles = Ok filtered →
  sublist filtered articles ∧ Forall (passed min_len) filtered.
Proof.
  intros Hrun. apply filter_loop_kept in Hrun as (kept & -> & ? & ?). done.
Qed.

(** ** The summariser and the processing loop *)

Lemma summarize_article_run client content title :
  ∃ summary,
    summarize_article client content title
    = ([ChatCompletion content title], Ok summary)
    ∧ ∀ cls msg, client content title = CallRaises cls msg →
                 summary = "Error generating summary: " +:+ msg.
Proof.
  unfold summarize_article.
  eexists. split; [reflexivity|].
  intros cls msg ->. reflexivity.
Qed.

Lemma process_loop_dict llm i d rest acc :
  process_loop llm i (PDict d :: rest) acc
  = match py_slice_to (default (PStr "N/A") (d !! "title")) 60 with
    | Raise e => ([], Raise e)
    | Ok _ =>
        summary ← summarize_article (llm i)
                     (default (PStr "") (d !! "content"))
                     (default (PStr "") (d !! "title"));
        output ← lift (create_summary_output (PDict d) summary);
        process_loop llm (S i) rest (acc ++ [output])
    end.
Proof.
  cbn [process_loop]. rewrite lift_bind. simpl py_get. cbv beta iota.
  rewrite lift_bind. destruct (py_slice_to _ 60); [|done].
  by rewrite !lift_bind.
Qed.

Lemma bind_ok {A B} (t : list event) (a : A) (k : A → script B) :
  (t, Ok a) ≫= k = (t ++ trace (k a), outcome (k a)).
Proof. unfold mbind, script_bind. by destruct (k a). Qed.

Lemma process_loop_trace llm articles : ∀ i acc,
  Forall (λ e, is_completion e = true) (trace (process_loop llm i articles acc)).
Proof.
  induction articles as [|a rest IH]; intros i acc; [constructor|].
  destruct a as [| | | | | |d]; try (cbn [process_loop]; rewrite lift_bind; constructor).
  rewrite process_loop_dict.
  destruct (py_slice_to _ 60); [|constructor].
  destruct (summarize_article_run (llm i) (default (PStr "") (d !! "content"))
              (default (PStr "") (d !! "title"))) as (summary & -> & _).
  rewrite bind_ok, lift_bind. simpl.
  constructor; [done|].
  destruct (create_summary_output (PDict d) summary); [apply IH|constructor].
Qed.

Lemma process_loop_ok llm articles : ∀ i acc records,
  outcome (process_loop llm i articles acc) = Ok records →
  ∃ new, records = acc ++ new ∧ Forall2 assembled_from articles new.
Proof.
  induction articles as [|a rest IH]; intros i acc records Hrun.
  - injection Hrun as <-. exists []. by rewrite app_nil_r.
  - destruct a as [| | | | | |d];
      try (cbn [process_loop] in Hrun; rewrite lift_bind in Hrun; discriminate).
    rewrite process_loop_dict in Hrun.
    destruct (py_slice_to _ 60); [|discriminate].
    destruct (summarize_article_run (llm i) (default (PStr "") (d !! "content"))
                (default (PStr "") (d !! "title"))) as (summary & Hs & _).
    rewrite Hs, bind_ok, lift_bind in Hrun. simpl in Hrun.
    destruct (create_summary_output (PDict d) summary) as [output|e] eqn:Hout;
      [|discriminate].
    apply IH in Hrun as (new & -> & Hall).
    exists (output :: new). rewrite <- app_assoc. split; [done|].
    constructor; [by exists summary|done].
Qed.

Lemma process_loop_run llm min_len articles : ∀ i acc,
  Forall (passed min_len) articles →
  Forall (λ a, title_sliceable a = true) articles →
  ∃ new,
    outcome (process_loop llm i articles acc) = Ok (acc ++ new)
    ∧ length new = length articles
    ∧ llm_calls (trace (process_loop llm i articles acc)) = length articles
    ∧ ∀ k a cls msg,
        articles !! k = Some a →
        llm (i + k)%nat (field_or a "content" (PStr ""))
            (field_or a "title" (PStr "")) = CallRaises cls msg →
        ∃ r, new !! k = Some r
             ∧ assembled_from a r
             ∧ r_ai_summary r = "Error generating summary: " +:+ msg.
Proof.
  induction articles as [|a rest IH]; intros i acc Hpassed Htitle.
  - exists []. simpl. rewrite app_nil_r. repeat split; done.
  - inversion Hpassed as [|? ? (d & n & -> & Htrue & Hlen & Hmin) Hpassed'];
      subst.
    inversion Htitle as [|? ? Hshown Htitle']; subst.
    rewrite process_loop_dict.
    unfold title_sliceable, field_or in Hshown.
    destruct (py_slice_to (default (PStr "N/A") (d !! "title")) 60) eqn:Hslice;
      [|destruct (default (PStr "N/A") (d !! "title")); simpl in *; congruence].
    destruct (summarize_article_run (llm i) (default (PStr "") (d !! "content"))
                (default (PStr "") (d !! "title"))) as (summary & Hs & Herr).
    rewrite Hs, bind_ok, lift_bind.
    rewrite (create_summary_output_dict d summary n Hlen).
    set (output := {| r_id := _ |}).
    destruct (IH (S i) (acc ++ [output]) Hpassed' Htitle')
      as (new & Hout & Hlength & Hcalls & Hnth).
    exists (output :: new). simpl.
    rewrite Hout, <- app_assoc. split; [done|]. split; [by rewrite Hlength|].
    split.
    { unfold trace in *. simpl. unfold llm_calls in *. simpl.
      by rewrite Hcalls. }
    intros [|k] a' cls msg Hk Hraise; simpl in Hk.
    + injection Hk as <-. rewrite Nat.add_0_r in Hraise. simpl in Hraise.
      exists output. split; [done|]. split.
      * exists summary. by apply create_summary_output_dict.
      * simpl. by eapply Herr.
    + apply (Hnth k a' cls msg Hk). by rewrite <- Nat.add_succ_comm in Hraise.
Qed.

(** ** The script as a whole *)

Lemma fetch_trace_quiet cfg w :
  Forall (λ e, is_completion e = false ∧ is_output_write e = false)
         (trace (fetch_articles cfg w)).
Proof.
  unfold fetch_articles, emit, lift, mbind, script_bind, mret, script_ret, trace.
  repeat case_match; simplify_eq/=; repeat constructor.
Qed.

Lemma fetch_sample_no_news_get cfg w :
  ndh_key_provided cfg = false →
  Forall (λ e, is_news_get e = false) (trace (fetch_articles cfg w)).
Proof.
  intros Hkey. unfold fetch_articles. rewrite Hkey.
  unfold emit, lift, mbind, script_bind, mret, script_ret, trace.
  repeat case_match; simplify_eq/=; repeat constructor.
Qed.

Lemma process_filtered cfg w articles items filtered :
  py_iter articles = Ok items →
  filter_articles (MIN_CONTENT_LENGTH cfg) items = Ok filtered →
  process cfg w articles
  = if Nat.eqb (length filtered) 0 then exit 1
    else if openai_key_missing cfg then exit 1
    else
      summarized_articles ←
        process_loop (completion w) 0
          (slice_to (NUM_ARTICLES_TO_PROCESS cfg) filtered) [];
      _ ← emit (WriteOutputFile summarized_articles);
      lift (report summarized_articles).
Proof.
  intros Hiter Hfilter. unfold process.
  rewrite Hiter, lift_bind. cbv beta iota.
  by rewrite Hfilter, lift_bind.
Qed.

(** The script stops before step 5 whenever nothing passed the filter or
    the OpenAI key is not set: no event after loading, and an exception
    at the top (the exit, unless iterating or filtering raised first). *)
Lemma process_early cfg w articles :
  (∀ items filtered,
     py_iter articles = Ok items →
     filter_articles (MIN_CONTENT_LENGTH cfg) items = Ok filtered →
     filtered = [] ∨ openai_key_missing cfg = true) →
  trace (process cfg w articles) = []
  ∧ ∃ e, outcome (process cfg w articles) = Raise e
         ∧ ∀ items filtered,
             py_iter articles = Ok items →
             filter_articles (MIN_CONTENT_LENGTH cfg) items = Ok filtered →
             e = SystemExit 1.
Proof.
  intros Hearly.
  destruct (py_iter articles) as [items|e] eqn:Hiter.
  - destruct (filter_articles (MIN_CONTENT_LENGTH cfg) items)
      as [filtered|e] eqn:Hfilter.
    + rewrite (process_filtered cfg w articles items filtered Hiter Hfilter).
      assert (Hexit : (if Nat.eqb (length filtered) 0 then exit 1
                       else if openai_key_missing cfg then exit 1
                       else (summarized_articles ←
                               process_loop (completion w) 0
                                 (slice_to (NUM_ARTICLES_TO_PROCESS cfg) filtered) [];
                             _ ← emit (WriteOutputFile summarized_articles);
                             lift (report summarized_articles)))
                      = (exit 1 : script ())).
      { destruct (Hearly items filtered eq_refl Hfilter) as [->| ->]; [done|].
        by destruct (Nat.eqb _ _). }
      rewrite Hexit. split; [done|].
      exists (SystemExit 1). split; [done|]. done.
    + unfold process. rewrite Hiter, lift_bind. cbv beta iota.
      rewrite Hfilter, lift_bind. split; [done|].
      exists e. split; [done|]. intros ? ? [= <-]. congruence.
  - unfold process. rewrite Hiter, lift_bind. split; [done|].
    exists e. split; [done|]. congruence.
Qed.

Lemma main_early cfg w :
  (∀ articles items filtered,
     outcome (fetch_articles cfg w) = Ok articles →
     py_iter articles = Ok items →
     filter_articles (MIN_CONTENT_LENGTH cfg) items = Ok filtered →
     filtered = [] ∨ openai_key_missing cfg = true) →
  llm_calls (trace (main cfg w)) = 0%nat
  ∧ output_file (trace (main cfg w)) = None
  ∧ ∃ e, outcome (main cfg w) = Raise e
         ∧ ∀ articles items filtered,
             outcome (fetch_articles cfg w) = Ok articles →
             py_iter articles = Ok items →
             filter_articles (MIN_CONTENT_LENGTH cfg) items = Ok filtered →
             e = SystemExit 1.
Proof.
  intros Hearly. unfold main. rewrite trace_bind, outcome_bind.
  pose proof (fetch_trace_quiet cfg w) as Hquiet.
  assert (Hrest : match outcome (fetch_articles cfg w) with
                  | Ok a => trace (process cfg w a)
                  | Raise _ => []
                  end = []).
  { destruct (outcome (fetch_articles cfg w)) as [articles|e]; [|done].
    apply process_early. intros items filtered. by apply Hearly. }
  rewrite Hrest, app_nil_r.
  split; [|split].
  - apply no_completion_no_calls. eapply Forall_impl; [exact Hquiet|].
    by intros e [? ?].
  - apply no_write_no_output. eapply Forall_impl; [exact Hquiet|].
    by intros e [? ?].
  - destruct (outcome (fetch_articles cfg w)) as [articles|e].
    + destruct (process_early cfg w articles) as (_ & e & He & Hexit).
      { intros items filtered. by apply Hearly. }
      exists e. split; [done|].
      intros ? items filtered [= <-]. apply Hexit.
    + exists e. split; [done|]. intros; discriminate.
Qed.

Lemma write_and_report_trace records :
  trace (_ ← emit (WriteOutputFile records); lift (report records))
  = [WriteOutputFile records].
Proof. unfold emit. by rewrite bind_ok. Qed.

Lemma process_output cfg w articles records :
  output_file (trace (process cfg w articles)) = Some records →
  ∃ items filtered,
    py_iter articles = Ok items
    ∧ filter_articles (MIN_CONTENT_LENGTH cfg) items = Ok filtered
    ∧ outcome (process_loop (completion w) 0
                 (slice_to (NUM_ARTICLES_TO_PROCESS cfg) filtered) [])
      = Ok records.
Proof.
  intros Hout.
  destruct (py_iter articles) as [items|e] eqn:Hiter;
    [|unfold process in Hout; rewrite Hiter, lift_bind in Hout; discriminate].
  destruct (filter_articles (MIN_CONTENT_LENGTH cfg) items)
    as [filtered|e] eqn:Hfilter.
  - rewrite (process_filtered cfg w articles items filtered Hiter Hfilter)
      in Hout.
    destruct (Nat.eqb _ _); [discriminate|].
    destruct (openai_key_missing cfg); [discriminate|].
    rewrite trace_bind, output_file_app in Hout.
    pose proof (process_loop_trace (completion w)
                  (slice_to (NUM_ARTICLES_TO_PROCESS cfg) filtered) 0 [])
      as Hloop.
    assert (Hnone : output_file
                      (trace (process_loop (completion w) 0
                                (slice_to (NUM_ARTICLES_TO_PROCESS cfg) filtered)
                                [])) = None).
    { apply no_write_no_output. eapply Forall_impl; [exact Hloop|].
      intros [] ?; done. }
    rewrite Hnone in Hout.
    destruct (outcome (process_loop _ _ _ _)) as [summarized|e] eqn:Hrun;
      [|discriminate].
    rewrite write_and_report_trace in Hout. injection Hout as <-.
    by exists items, filtered.
  - unfold process in Hout. rewrite Hiter, lift_bind in Hout.
    cbv beta iota in Hout. rewrite Hfilter, lift_bind in Hout. discriminate.
Qed.

Lemma main_output cfg w records :
  output_file (trace (main cfg w)) = Some records →
  ∃ articles, outcome (fetch_articles cfg w) = Ok articles
              ∧ output_file (trace (process cfg w articles)) = Some records.
Proof.
  unfold main. rewrite trace_bind, output_file_app.
  assert (Hnone : output_file (trace (fetch_articles cfg w)) = None).
  { apply no_write_no_output.
    eapply Forall_impl; [apply fetch_trace_quiet|]. by intros e [? ?]. }
  rewrite Hnone.
  destruct (outcome (fetch_articles cfg w)) as [articles|e]; [|discriminate].
  destruct (output_file (trace (process cfg w articles))) eqn:Hout;
    [|discriminate].
  intros [= <-]. by exists articles.
Qed.

Lemma slice_to_nonneg {A} (n : Z) (xs : list A) :
  0 ≤ n →
  slice_to n xs = take (Z.to_nat n) xs
  ∧ Z.of_nat (length (slice_to n xs)) ≤ n
  ∧ (length (slice_to n xs) ≤ length xs)%nat.
Proof.
  intros Hn. unfold slice_to.
  destruct (0 <=? n) eqn:Hle; [|lia].
  rewrite length_take. repeat split; lia.
Qed.

(** C2. Whenever the script writes its output, the records written are,
    one for one and in order, assembled from the articles the filter
    kept, cut at the configured count: there are no more records than
    that count (5 in the source, any count from 0 up here), nor than
    kept articles. *)
Theorem output_follows_filtered (cfg : config) (w : world)
    (records : list summary_record) :
  0 ≤ NUM_ARTICLES_TO_PROCESS cfg →
  output_file (trace (main cfg w)) = Some records →
  ∃ articles items filtered,
    outcome (fetch_articles cfg w) = Ok articles
    ∧ py_iter articles = Ok items
    ∧ filter_articles (MIN_CONTENT_LENGTH cfg) items = Ok filtered
    ∧ Forall (passed (MIN_CONTENT_LENGTH cfg)) filtered
    ∧ Forall2 assembled_from
        (take (Z.to_nat (NUM_ARTICLES_TO_PROCESS cfg)) filtered) records
    ∧ Z.of_nat (length records) ≤ NUM_ARTICLES_TO_PROCESS cfg
    ∧ (length records ≤ length filtered)%nat.
Proof.
  intros Hnum Hout.
  apply main_output in Hout as (articles & Hfetch & Hout).
  apply process_output in Hout as (items & filtered & Hiter & Hfilter & Hloop).
  apply process_loop_ok in Hloop as (new & -> & Hall).
  destruct (slice_to_nonneg (NUM_ARTICLES_TO_PROCESS cfg) filtered Hnum)
    as (Hslice & Hle & Hlen).
  pose proof (Forall2_length _ _ _ Hall) as Hsame.
  exists articles, items, filtered. simpl.
  repeat split; try done.
  - by apply filter_articles_kept in Hfilter as [_ ?].
  - by rewrite <- Hslice.
  - by rewrite <- Hsame.
  - by rewrite <- Hsame.
Qed.

Lemma output_follows_filtered_witness :
  ∃ records,
    output_file
      (trace (main demo_config
                (demo_world (PList [short_article; long_article]))))
    = Some records
    ∧ Z.of_nat (length records) ≤ 5.
Proof.
  eexists. split; [vm_compute; reflexivity|].
  destruct (output_follows_filtered demo_config
              (demo_world (PList [short_article; long_article])) _
              ltac:(vm_compute; discriminate) eq_refl)
    as (_ & _ & _ & _ & _ & _ & _ & _ & Hle & _).
  exact Hle.
Defined.

(** C5. When nothing passes the filter the script ends in [exit(1)]:
    no completion request has been made, and no output file written. *)
Theorem empty_filter_exits (cfg : config) (w : world)
    (articles : pyval) (items : list pyval) :
  outcome (fetch_articles cfg w) = Ok articles →
  py_iter articles = Ok items →
  filter_articles (MIN_CONTENT_LENGTH cfg) items = Ok [] →
  outcome (main cfg w) = Raise (SystemExit 1)
  ∧ llm_calls (trace (main cfg w)) = 0%nat
  ∧ output_file (trace (main cfg w)) = None.
Proof.
  intros Hfetch Hiter Hfilter.
  destruct (main_early cfg w) as (Hcalls & Hout & e & He & Hexit).
  { intros articles' items' filtered' Hfetch' Hiter' Hfilter'.
    left. congruence. }
  rewrite (Hexit articles items [] Hfetch Hiter Hfilter) in He.
  done.
Qed.

Lemma empty_filter_exits_witness :
  outcome (main demo_config (demo_world (PList [short_article])))
  = Raise (SystemExit 1)
  ∧ llm_calls (trace (main demo_config (demo_world (PList [short_article]))))
    = 0%nat
  ∧ output_file (trace (main demo_config (demo_world (PList [short_article]))))
    = None.
Proof.
  apply (empty_filter_exits demo_config (demo_world (PList [short_article]))
           (PList [short_article]) [short_article]);
    vm_compute; reflexivity.
Defined.

(** C6. With the OpenAI key left empty the script never reaches the
    completion endpoint, on any input: it ends with an exception at the
    top, which is [exit(1)] whenever loading and filtering went through,
    and writes no output. *)
Theorem empty_openai_key_exits (cfg : config) (w : world) :
  OPENAI_API_KEY cfg = "" →
  llm_calls (trace (main cfg w)) = 0%nat
  ∧ output_file (trace (main cfg w)) = None
  ∧ ∃ e, outcome (main cfg w) = Raise e
         ∧ ∀ articles items filtered,
             outcome (fetch_articles cfg w) = Ok articles →
             py_iter articles = Ok items →
             filter_articles (MIN_CONTENT_LENGTH cfg) items = Ok filtered →
             e = SystemExit 1.
Proof.
  intros Hkey. apply main_early.
  intros ? ? ? ? ? ?. right. unfold openai_key_missing. by rewrite Hkey.
Qed.

Lemma empty_openai_key_exits_witness :
  llm_calls (trace (main source_config (demo_world (PList [long_article]))))
  = 0%nat
  ∧ outcome (main source_config (demo_world (PList [long_article])))
    = Raise (SystemExit 1).
Proof.
  destruct (empty_openai_key_exits source_config
              (demo_world (PList [long_article])) eq_refl)
    as (Hcalls & _ & e & He & Hexit).
  split; [exact Hcalls|].
  rewrite He. f_equal.
  apply (Hexit (PList [long_article]) [long_article] [long_article]);
    vm_compute; reflexivity.
Defined.

Lemma slice_to_take {A} (n : Z) (xs : list A) :
  ∃ m, slice_to n xs = take m xs.
Proof. unfold slice_to. destruct (0 <=? n); eauto. Qed.

Lemma forallb_Forall {A} (f : A → bool) (l : list A) :
  forallb f l = true → Forall (λ x, f x = true) l.
Proof.
  induction l as [|x l IH]; simpl; [constructor|].
  intros [? ?]%andb_prop. constructor; auto.
Qed.

Lemma error_summary_prefix msg :
  String.prefix "Error generating summary:"
                ("Error generating summary: " +:+ msg) = true.
Proof. reflexivity. Qed.

(** C7. Once the script reaches the loop, a completion request that
    raises does not stop it: every article of the slice gets its record
    and the output is written, and the record of an article whose
    request raised carries the text "Error generating summary: "
    followed by the exception's message. *)
Theorem failed_summary_is_recorded (cfg : config) (w : world)
    (articles : pyval) (items filtered : list pyval) :
  outcome (fetch_articles cfg w) = Ok articles →
  py_iter articles = Ok items →
  filter_articles (MIN_CONTENT_LENGTH cfg) items = Ok filtered →
  Nat.eqb (length filtered) 0 = false →
  openai_key_missing cfg = false →
  forallb title_sliceable (slice_to (NUM_ARTICLES_TO_PROCESS cfg) filtered)
  = true →
  ∃ records,
    output_file (trace (main cfg w)) = Some records
    ∧ length records = length (slice_to (NUM_ARTICLES_TO_PROCESS cfg) filtered)
    ∧ llm_calls (trace (main cfg w))
      = length (slice_to (NUM_ARTICLES_TO_PROCESS cfg) filtered)
    ∧ ∀ k a cls msg,
        slice_to (NUM_ARTICLES_TO_PROCESS cfg) filtered !! k = Some a →
        completion w k (field_or a "content" (PStr ""))
                   (field_or a "title" (PStr "")) = CallRaises cls msg →
        ∃ r, records !! k = Some r
             ∧ assembled_from a r
             ∧ r_ai_summary r = "Error generating summary: " +:+ msg
             ∧ String.prefix "Error generating summary:" (r_ai_summary r)
               = true.
Proof.
  intros Hfetch Hiter Hfilter Hnonempty Hkey Htitles.
  set (todo := slice_to (NUM_ARTICLES_TO_PROCESS cfg) filtered) in *.
  assert (Hpassed : Forall (passed (MIN_CONTENT_LENGTH cfg)) todo).
  { apply filter_articles_kept in Hfilter as [_ Hall].
    destruct (slice_to_take (NUM_ARTICLES_TO_PROCESS cfg) filtered)
      as [m Hm].
    unfold todo. rewrite Hm. by apply Forall_take. }
  destruct (process_loop_run (completion w) (MIN_CONTENT_LENGTH cfg) todo 0 []
              Hpassed (forallb_Forall _ _ Htitles))
    as (records & Hrun & Hlen & Hcalls & Hfailed).
  simpl in Hrun.
  assert (Htrace : trace (process cfg w articles)
                   = trace (process_loop (completion w) 0 todo [])
                     ++ [WriteOutputFile records]).
  { rewrite (process_filtered cfg w articles items filtered Hiter Hfilter).
    rewrite Hnonempty, Hkey. fold todo.
    by rewrite trace_bind, Hrun, write_and_report_trace. }
  exists records. unfold main.
  rewrite trace_bind, Hfetch, Htrace.
  split; [|split; [done|split]].
  - rewrite !output_file_app. reflexivity.
  - rewrite !llm_calls_app, Hcalls.
    rewrite (no_completion_no_calls (trace (fetch_articles cfg w))).
    + unfold llm_calls. simpl. lia.
    + eapply Forall_impl; [apply fetch_trace_quiet|]. by intros e [? ?].
  - intros k a cls msg Hk Hraise.
    destruct (Hfailed k a cls msg Hk Hraise) as (r & Hr & Hfrom & Hsummary).
    exists r. repeat split; try done.
    rewrite Hsummary. apply error_summary_prefix.
Qed.

Lemma failed_summary_is_recorded_witness :
  ∃ records r,
    output_file
      (trace (main demo_config
                (demo_world
                   (PList [long_article; short_article; other_long_article]))))
    = Some records
    ∧ length records = 2%nat
    ∧ records !! 0%nat = Some r
    ∧ r_ai_summary r = "Error generating summary: rate limit exceeded".
Proof.
  destruct (failed_summary_is_recorded demo_config
              (demo_world
                 (PList [long_article; short_article; other_long_article]))
              (PList [long_article; short_article; other_long_article])
              [long_article; short_article; other_long_article]
              [long_article; other_long_article])
    as (records & Hout & Hlen & _ & Hfailed);
    try (vm_compute; reflexivity).
  destruct (Hfailed 0%nat long_article ExternalError "rate limit exceeded"
              eq_refl eq_refl) as (r & Hr & _ & Hsummary & _).
  exists records, r. repeat split; assumption.
Defined.

(** C10. A credential left at its placeholder behaves as an empty one.
    With the NewsDataHub placeholder the run is the run with no key: the
    sample data is loaded and the news endpoint is not called.  With the
    OpenAI placeholder the run is the run with no key: no completion
    request, no output, and [exit(1)] whenever loading and filtering
    went through. *)
Theorem placeholder_keys_count_as_missing (cfg : config) (w : world) :
  (main (with_ndh_key "your_ndh_api_key_here" cfg) w
   = main (with_ndh_key "" cfg) w
   ∧ Forall (λ e, is_news_get e = false)
       (trace (fetch_articles (with_ndh_key "your_ndh_api_key_here" cfg) w)))
  ∧ (main (with_openai_key "your_openai_api_key_here" cfg) w
     = main (with_openai_key "" cfg) w
     ∧ llm_calls
         (trace (main (with_openai_key "your_openai_api_key_here" cfg) w))
       = 0%nat
     ∧ output_file
         (trace (main (with_openai_key "your_openai_api_key_here" cfg) w))
       = None
     ∧ ∃ e, outcome (main (with_openai_key "your_openai_api_key_here" cfg) w)
            = Raise e
            ∧ ∀ articles items filtered,
                outcome (fetch_articles cfg w) = Ok articles →
                py_iter articles = Ok items →
                filter_articles (MIN_CONTENT_LENGTH cfg) items = Ok filtered →
                e = SystemExit 1).
Proof.
  split; [split|split].
  - reflexivity.
  - by apply fetch_sample_no_news_get.
  - reflexivity.
  - destruct (main_early (with_openai_key "your_openai_api_key_here" cfg) w)
      as (Hcalls & Hout & e & He & Hexit); [by right|].
    split; [done|]. split; [done|].
    exists e. split; [done|]. exact Hexit.
Qed.

(** * Further properties of the script *)

(** ** The filter on arbitrary input *)

Lemma filter_loop_raises min_len articles : ∀ acc,
  forallb filterable articles = false →
  ∃ e, filter_loop min_len acc articles = Raise e.
Proof.
  induction articles as [|a rest IH]; intros acc Hbad; [discriminate|].
  cbn [forallb] in Hbad. cbn [filter_loop].
  destruct a as [| | | | | |d]; simpl; eauto.
  simpl in Hbad.
  set (content := default (PStr "") (d !! "content")) in *.
  destruct (truthy content) eqn:Htruthy; simpl in *.
  - destruct content; simpl in *; eauto.
  - eauto.
Qed.

Lemma filter_loop_filterable min_len articles : ∀ acc,
  forallb filterable articles = true →
  filter_loop min_len acc articles
  = Ok (acc ++ List.filter (kept_by min_len) articles).
Proof.
  induction articles as [|a rest IH]; intros acc Hall.
  - simpl. by rewrite app_nil_r.
  - cbn [forallb] in Hall. apply andb_prop in Hall as [Ha Hrest].
    cbn [filter_loop List.filter].
    destruct a as [| | | | | |d]; try discriminate.
    simpl in *.
    set (content := default (PStr "") (d !! "content")) in *.
    destruct (truthy content) eqn:Htruthy; simpl in *.
    + destruct (py_len content) as [n|e] eqn:Hlen;
        [|destruct content; simpl in *; discriminate].
      simpl. rewrite IH by done.
      destruct (min_len <=? n); [by rewrite <- app_assoc|done].
    + by rewrite IH.
Qed.

(** X1. The filter returns exactly when every item is a mapping whose
    content is false or has a length, whatever the threshold; it then
    returns the items whose content is true and at least the threshold
    long, in order.  On any other input it raises. *)
Theorem filter_articles_returns_iff (min_len : Z) (articles : list pyval) :
  match filter_articles min_len articles with
  | Ok kept =>
      forallb filterable articles = true
      ∧ kept = List.filter (kept_by min_len) articles
  | Raise _ => forallb filterable articles = false
  end.
Proof.
  unfold filter_articles.
  destruct (forallb filterable articles) eqn:Hall.
  - by rewrite filter_loop_filterable.
  - by destruct (filter_loop_raises min_len articles [] Hall) as [e ->].
Qed.

Lemma filter_articles_ok_inv min_len articles kept :
  filter_articles min_len articles = Ok kept →
  forallb filterable articles = true
  ∧ kept = List.filter (kept_by min_len) articles.
Proof.
  unfold filter_articles. intros Hrun.
  destruct (forallb filterable articles) eqn:Hall.
  - rewrite filter_loop_filterable in Hrun by done. by injection Hrun as <-.
  - destruct (filter_loop_raises min_len articles [] Hall) as [e He].
    congruence.
Qed.

Lemma kept_by_mono min1 min2 article :
  min1 ≤ min2 → kept_by min2 article = true → kept_by min1 article = true.
Proof.
  intros Hle. destruct article as [| | | | | |d]; simpl; try done.
  destruct (truthy _); simpl; [|done].
  destruct (py_len _); [|done]. intros. lia.
Qed.

Lemma filter_sublist_mono {A} (f g : A → bool) (l : list A) :
  (∀ x, g x = true → f x = true) →
  sublist (List.filter g l) (List.filter f l).
Proof.
  intros Himp. induction l as [|x l IH]; simpl; [constructor|].
  destruct (g x) eqn:Hg.
  - rewrite (Himp x Hg). by constructor.
  - destruct (f x); [by constructor|done].
Qed.

(** X2. Lowering the threshold never loses an article: when the filter
    returns at a threshold, it returns at every lower one, with a list
    that contains the former as a subsequence. *)
Theorem lower_threshold_keeps_more (min1 min2 : Z)
    (articles kept2 : list pyval) :
  min1 ≤ min2 →
  filter_articles min2 articles = Ok kept2 →
  ∃ kept1, filter_articles min1 articles = Ok kept1 ∧ sublist kept2 kept1.
Proof.
  intros Hle Hrun.
  apply filter_articles_ok_inv in Hrun as [Hall ->].
  exists (List.filter (kept_by min1) articles). split.
  - unfold filter_articles. by rewrite filter_loop_filterable.
  - apply filter_sublist_mono. intros a. by apply kept_by_mono.
Qed.

Lemma lower_threshold_keeps_more_witness :
  ∃ kept1,
    filter_articles 300 [short_article; long_article; other_long_article]
    = Ok kept1
    ∧ sublist [long_article] kept1.
Proof.
  apply (lower_threshold_keeps_more 300 350
           [short_article; long_article; other_long_article] [long_article]).
  - lia.
  - vm_compute. reflexivity.
Defined.

Lemma kept_by_filterable min_len article :
  kept_by min_len article = true → filterable article = true.
Proof.
  destruct article as [| | | | | |d]; simpl; try done.
  destruct (truthy _); simpl; [|done].
  by destruct (default (PStr "") (d !! "content")).
Qed.

Lemma filter_filter_same {A} (f : A → bool) (l : list A) :
  List.filter f (List.filter f l) = List.filter f l.
Proof.
  induction l as [|x l IH]; simpl; [done|].
  destruct (f x) eqn:Hf; simpl; [|done]. by rewrite Hf, IH.
Qed.

(** X3. Filtering is idempotent: a list the filter returned goes
    through the filter again unchanged. *)
Theorem filter_articles_idempotent (min_len : Z)
    (articles kept : list pyval) :
  filter_articles min_len articles = Ok kept →
  filter_articles min_len kept = Ok kept.
Proof.
  intros Hrun.
  apply filter_articles_ok_inv in Hrun as [_ ->].
  unfold filter_articles. rewrite filter_loop_filterable.
  - by rewrite filter_filter_same.
  - apply forallb_forall. intros a [_ Ha]%filter_In.
    by eapply kept_by_filterable.
Qed.

Lemma filter_articles_idempotent_witness :
  filter_articles 300 [long_article; other_long_article]
  = Ok [long_article; other_long_article].
Proof.
  apply (filter_articles_idempotent 300
           [short_article; long_article; other_long_article]).
  vm_compute. reflexivity.
Defined.

(** ** The assembler and the summariser on arbitrary input *)

Lemma create_summary_output_cases d summary :
  create_summary_output (PDict d) summary
  = match py_len (default (PStr "") (d !! "content")) with
    | Ok n =>
        Ok {| r_id := default PNone (d !! "id");
              r_title := default PNone (d !! "title");
              r_source := default PNone (d !! "source_title");
              r_published := default PNone (d !! "pub_date");
              r_url := default PNone (d !! "article_link");
              r_language := default PNone (d !! "language");
              r_topics := default (PList []) (d !! "topics");
              r_original_content_length := n;
              r_ai_summary := summary |}
    | Raise e => Raise e
    end.
Proof.
  unfold create_summary_output. simpl. by destruct (py_len _).
Qed.

(** X4. The assembler returns exactly on mappings whose content (or the
    empty string standing in for a missing one) has a length, and then
    stores the summary it was given unchanged.  It raises
    [AttributeError] on anything that is not a mapping and [TypeError]
    on a mapping whose content is null, a boolean or a number. *)
Theorem create_summary_output_returns_iff (article : pyval) (summary : string) :
  match create_summary_output article summary with
  | Ok r => assemblable article = true ∧ r_ai_summary r = summary
  | Raise e =>
      assemblable article = false
      ∧ ∃ msg, e = Exn (if isinstance_dict article then TypeError
                        else AttributeError) msg
  end.
Proof.
  destruct article as [| | | | | |d]; try (simpl; eauto; fail).
  rewrite create_summary_output_cases. simpl.
  destruct (default (PStr "") (d !! "content")); simpl; eauto.
Qed.

(** X5. The summariser makes one completion request and never raises.
    Its result is the stripped text of the first choice when there is
    one; when the request raises, the choices are empty or the first
    message has no content, it is a text starting with
    "Error generating summary:". *)
Theorem summarize_article_never_raises
    (client : pyval → pyval → reply) (content title : pyval) :
  ∃ summary,
    summarize_article client content title
    = ([ChatCompletion content title], Ok summary)
    ∧ match client content title with
      | CallReturns (Some text :: _) => summary = strip text
      | _ => String.prefix "Error generating summary:" summary = true
      end.
Proof.
  unfold summarize_article.
  eexists. split; [reflexivity|].
  destruct (client content title) as [cls msg|[|[text|] rest]]; reflexivity.
Qed.

(** ** The report *)

Lemma py_slice_to_cases v n :
  match py_slice_to v n with
  | Ok _ => sliceable v = true
  | Raise e => sliceable v = false ∧ ∃ msg, e = Exn TypeError msg
  end.
Proof. destruct v; simpl; eauto. Qed.

Lemma first_non_str_none i l :
  first_non_str i l = None
  ↔ forallb (λ x, match x with PStr _ => true | _ => false end) l = true.
Proof.
  revert i. induction l as [|x l IH]; intros i; simpl; [done|].
  destruct x; simpl; try (split; discriminate). apply IH.
Qed.

Lemma py_join_check_cases v :
  match py_join_check v with
  | Ok _ => joinable v = true
  | Raise e => joinable v = false ∧ ∃ msg, e = Exn TypeError msg
  end.
Proof.
  destruct v as [| | | | |l|]; simpl; eauto.
  destruct (first_non_str 0 l) as [[i x]|] eqn:Hfirst.
  - split; [|eauto].
    destruct (forallb _ l) eqn:Hall; [|done].
    apply first_non_str_none with (i := 0%nat) in Hall. congruence.
  - by apply first_non_str_none in Hfirst.
Qed.

Lemma report_cases records :
  match report records with
  | Ok _ => forallb reportable records = true
  | Raise e =>
      forallb reportable records = false ∧ ∃ msg, e = Exn TypeError msg
  end.
Proof.
  induction records as [|r rest IH]; simpl; [done|].
  unfold reportable at 1 3.
  pose proof (py_slice_to_cases (r_published r) 10) as Hslice.
  destruct (py_slice_to (r_published r) 10) as [?|e]; simpl.
  - rewrite Hslice. simpl.
    destruct (truthy (r_topics r)); simpl.
    + pose proof (py_join_check_cases (r_topics r)) as Hjoin.
      destruct (py_join_check (r_topics r)) as [?|e]; simpl.
      * rewrite Hjoin. simpl. exact IH.
      * destruct Hjoin as [-> ?]. simpl. eauto.
    + exact IH.
  - destruct Hslice as [-> ?]. simpl. eauto.
Qed.

Lemma report_metadata records : ∀ records',
  metadata <$> records = metadata <$> records' →
  report records = report records'.
Proof.
  induction records as [|r rest IH]; intros [|r' rest'] Hsame;
    try discriminate; [done|].
  rewrite !fmap_cons in Hsame.
  injection Hsame as _ _ _ Hpub _ _ Htopics _ Hrest.
  simpl. rewrite Hpub, Htopics, (IH rest' Hrest). done.
Qed.

(** ** The loop: what it requests, and what the answers can change *)

Lemma requests_are_completions l :
  List.filter is_completion (request_of <$> l) = request_of <$> l.
Proof. induction l as [|a l IH]; simpl; [done|]. f_equal. exact IH. Qed.

Lemma llm_calls_requests l : llm_calls (request_of <$> l) = length l.
Proof.
  unfold llm_calls. by rewrite requests_are_completions, length_fmap.
Qed.

Lemma process_loop_requests llm articles : ∀ i acc,
  ∃ k, trace (process_loop llm i articles acc) = request_of <$> take k articles
       ∧ ∀ records,
           outcome (process_loop llm i articles acc) = Ok records →
           trace (process_loop llm i articles acc) = request_of <$> articles.
Proof.
  induction articles as [|a rest IH]; intros i acc.
  - exists 0%nat. by split.
  - destruct a as [| | | | | |d];
      try (exists 0%nat; cbn [process_loop]; rewrite lift_bind;
           split; [done|discriminate]).
    rewrite process_loop_dict.
    destruct (py_slice_to _ 60); [|exists 0%nat; split; [done|discriminate]].
    destruct (summarize_article_run (llm i) (default (PStr "") (d !! "content"))
                (default (PStr "") (d !! "title"))) as (summary & -> & _).
    rewrite bind_ok, lift_bind.
    destruct (create_summary_output (PDict d) summary) as [output|e].
    + destruct (IH (S i) (acc ++ [output])) as (k & Hk & Hall).
      exists (S k). split.
      * unfold trace at 1. cbn [fst]. by rewrite Hk.
      * intros records Hrecords. unfold outcome at 1 in Hrecords.
        cbn [snd] in Hrecords. unfold trace at 1. cbn [fst].
        by rewrite (Hall records Hrecords).
    + exists 1%nat. split; [done|discriminate].
Qed.

(** Two runs of the loop that differ in the completion endpoint, and
    start from records that differ in the summaries only, make the same
    requests and end alike: the same exception, or records that again
    differ in the summaries only. *)
Lemma process_loop_oracle llm llm' articles : ∀ i acc acc',
  metadata <$> acc = metadata <$> acc' →
  trace (process_loop llm i articles acc)
  = trace (process_loop llm' i articles acc')
  ∧ match outcome (process_loop llm i articles acc),
          outcome (process_loop llm' i articles acc') with
    | Ok records, Ok records' => metadata <$> records = metadata <$> records'
    | Raise e, Raise e' => e = e'
    | _, _ => False
    end.
Proof.
  induction articles as [|a rest IH]; intros i acc acc' Hsame; [done|].
  destruct a as [| | | | | |d];
    try (cbn [process_loop]; rewrite !lift_bind; done).
  rewrite !process_loop_dict.
  destruct (py_slice_to _ 60); [|done].
  destruct (summarize_article_run (llm i) (default (PStr "") (d !! "content"))
              (default (PStr "") (d !! "title"))) as (summary & -> & _).
  destruct (summarize_article_run (llm' i) (default (PStr "") (d !! "content"))
              (default (PStr "") (d !! "title"))) as (summary' & -> & _).
  rewrite !bind_ok, !lift_bind, !create_summary_output_cases.
  destruct (py_len (default (PStr "") (d !! "content"))) as [n|e]; [|done].
  match goal with
  | |- context [process_loop llm (S i) rest (acc ++ [?o])] =>
      match goal with
      | |- context [process_loop llm' (S i) rest (acc' ++ [?o'])] =>
          destruct (IH (S i) (acc ++ [o]) (acc' ++ [o'])) as [Htrace Hout]
      end
  end.
  { rewrite !fmap_app, Hsame. done. }
  unfold trace, outcome in *. simpl. by rewrite Htrace.
Qed.

Lemma process_loop_bad_title llm min_len articles : ∀ i acc,
  Forall (passed min_len) articles →
  forallb title_sliceable articles = false →
  ∃ msg, outcome (process_loop llm i articles acc) = Raise (Exn TypeError msg).
Proof.
  induction articles as [|a rest IH]; intros i acc Hpassed Hbad;
    [discriminate|].
  inversion Hpassed as [|? ? (d & n & -> & Htrue & Hlen & Hmin) Hpassed'];
    subst.
  cbn [forallb] in Hbad. rewrite process_loop_dict.
  pose proof (py_slice_to_cases (default (PStr "N/A") (d !! "title")) 60)
    as Hslice.
  change (title_sliceable (PDict d))
    with (sliceable (default (PStr "N/A") (d !! "title"))) in Hbad.
  destruct (py_slice_to _ 60) as [?|e].
  - rewrite Hslice in Hbad. simpl in Hbad.
    destruct (summarize_article_run (llm i) (default (PStr "") (d !! "content"))
                (default (PStr "") (d !! "title"))) as (summary & -> & _).
    rewrite bind_ok, lift_bind, (create_summary_output_dict d summary n Hlen).
    apply (IH (S i) _ Hpassed' Hbad).
  - destruct Hslice as [_ [msg ->]]. by exists msg.
Qed.

(** ** The script past the two exits *)

Lemma process_late cfg w articles items filtered :
  py_iter articles = Ok items →
  filter_articles (MIN_CONTENT_LENGTH cfg) items = Ok filtered →
  Nat.eqb (length filtered) 0 = false →
  openai_key_missing cfg = false →
  trace (process cfg w articles)
  = trace (process_loop (completion w) 0
             (slice_to (NUM_ARTICLES_TO_PROCESS cfg) filtered) [])
    ++ match outcome (process_loop (completion w) 0
                        (slice_to (NUM_ARTICLES_TO_PROCESS cfg) filtered) [])
       with
       | Ok records => [WriteOutputFile records]
       | Raise _ => []
       end
  ∧ outcome (process cfg w articles)
    = match outcome (process_loop (completion w) 0
                       (slice_to (NUM_ARTICLES_TO_PROCESS cfg) filtered) [])
      with
      | Ok records => report records
      | Raise e => Raise e
      end.
Proof.
  intros Hiter Hfilter Hnonempty Hkey.
  rewrite (process_filtered cfg w articles items filtered Hiter Hfilter).
  rewrite Hnonempty, Hkey, trace_bind, outcome_bind.
  destruct (outcome (process_loop _ _ _ _)) as [records|e]; [|done].
  rewrite write_and_report_trace. split; [done|].
  unfold emit. by rewrite bind_ok.
Qed.

Lemma process_cases cfg w articles :
  (trace (process cfg w articles) = []
   ∧ ∃ e, outcome (process cfg w articles) = Raise e)
  ∨ ∃ items filtered,
      py_iter articles = Ok items
      ∧ filter_articles (MIN_CONTENT_LENGTH cfg) items = Ok filtered
      ∧ Nat.eqb (length filtered) 0 = false
      ∧ openai_key_missing cfg = false.
Proof.
  destruct (py_iter articles) as [items|e] eqn:Hiter.
  - destruct (filter_articles (MIN_CONTENT_LENGTH cfg) items)
      as [filtered|e] eqn:Hfilter.
    + destruct (Nat.eqb (length filtered) 0) eqn:Hnonempty.
      * left. destruct (process_early cfg w articles) as (? & e & ? & _);
          [|by eauto].
        intros items' filtered' Hi Hf.
        assert (items' = items) as -> by congruence.
        assert (filtered' = filtered) as -> by congruence.
        left. destruct filtered; [done|discriminate].
      * destruct (openai_key_missing cfg) eqn:Hkey.
        -- left. destruct (process_early cfg w articles) as (? & e & ? & _);
             [by right|by eauto].
        -- right. by exists items, filtered.
    + left. destruct (process_early cfg w articles) as (? & e' & ? & _);
        [|by eauto].
      intros items' filtered' Hi Hf.
      assert (items' = items) as -> by congruence. congruence.
  - left. destruct (process_early cfg w articles) as (? & e' & ? & _);
      [|by eauto].
    intros ? ? ?. congruence.
Qed.

Lemma main_cases cfg w :
  (trace (main cfg w) = trace (fetch_articles cfg w)
   ∧ ∃ e, outcome (main cfg w) = Raise e)
  ∨ ∃ articles items filtered,
      outcome (fetch_articles cfg w) = Ok articles
      ∧ py_iter articles = Ok items
      ∧ filter_articles (MIN_CONTENT_LENGTH cfg) items = Ok filtered
      ∧ Nat.eqb (length filtered) 0 = false
      ∧ openai_key_missing cfg = false
      ∧ trace (main cfg w)
        = trace (fetch_articles cfg w)
          ++ trace (process_loop (completion w) 0
                      (slice_to (NUM_ARTICLES_TO_PROCESS cfg) filtered) [])
          ++ match outcome (process_loop (completion w) 0
                              (slice_to (NUM_ARTICLES_TO_PROCESS cfg) filtered)
                              [])
             with
             | Ok records => [WriteOutputFile records]
             | Raise _ => []
             end
      ∧ outcome (main cfg w)
        = match outcome (process_loop (completion w) 0
                           (slice_to (NUM_ARTICLES_TO_PROCESS cfg) filtered) [])
          with
          | Ok records => report records
          | Raise e => Raise e
          end.
Proof.
  unfold main. rewrite trace_bind, outcome_bind.
  destruct (outcome (fetch_articles cfg w)) as [articles|e] eqn:Hfetch.
  - destruct (process_cases cfg w articles)
      as [[Htrace He]|(items & filtered & Hiter & Hfilter & Hne & Hkey)].
    + left. by rewrite Htrace, app_nil_r.
    + right. exists articles, items, filtered.
      destruct (process_late cfg w articles items filtered Hiter Hfilter
                  Hne Hkey) as [-> ->].
      done.
  - left. rewrite app_nil_r. eauto.
Qed.

Lemma fetch_no_output cfg w : output_file (trace (fetch_articles cfg w)) = None.
Proof.
  apply no_write_no_output.
  eapply Forall_impl; [apply fetch_trace_quiet|]. by intros e [? ?].
Qed.

Lemma fetch_no_calls cfg w :
  List.filter is_completion (trace (fetch_articles cfg w)) = [].
Proof.
  pose proof (fetch_trace_quiet cfg w) as Hquiet.
  induction Hquiet as [|e t [He _] _ IH]; simpl; [done|]. by rewrite He.
Qed.

Lemma requests_no_output l : output_file (request_of <$> l) = None.
Proof.
  induction l as [|a l IH]; [done|].
  rewrite fmap_cons. cbn [output_file]. by rewrite IH.
Qed.

(** The run wrote [records] exactly when it passed both exits and the
    loop returned them; its trace and end are then as follows. *)
Lemma main_written cfg w records :
  output_file (trace (main cfg w)) = Some records →
  ∃ articles items filtered,
    outcome (fetch_articles cfg w) = Ok articles
    ∧ py_iter articles = Ok items
    ∧ filter_articles (MIN_CONTENT_LENGTH cfg) items = Ok filtered
    ∧ outcome (process_loop (completion w) 0
                 (slice_to (NUM_ARTICLES_TO_PROCESS cfg) filtered) [])
      = Ok records
    ∧ trace (main cfg w)
      = trace (fetch_articles cfg w)
        ++ (request_of <$> slice_to (NUM_ARTICLES_TO_PROCESS cfg) filtered)
        ++ [WriteOutputFile records]
    ∧ outcome (main cfg w) = report records.
Proof.
  intros Hout.
  destruct (main_cases cfg w)
    as [[Htrace _]|(articles & items & filtered & Hfetch & Hiter & Hfilter
                    & _ & _ & Htrace & Hend)].
  - rewrite Htrace, fetch_no_output in Hout. discriminate.
  - destruct (process_loop_requests (completion w)
                (slice_to (NUM_ARTICLES_TO_PROCESS cfg) filtered) 0 [])
      as (k & Hk & Hall).
    destruct (outcome (process_loop _ _ _ _)) as [records'|e] eqn:Hloop.
    + rewrite (Hall records' eq_refl) in Htrace.
      rewrite Htrace, !output_file_app in Hout. simpl in Hout.
      injection Hout as <-.
      by exists articles, items, filtered.
    + rewrite Hk in Htrace.
      rewrite Htrace, app_nil_r, output_file_app, requests_no_output,
        fetch_no_output in Hout.
      discriminate.
Qed.

(** ** Properties of whole runs *)

(** X6. However the run goes, it makes no more completion requests than
    the configured number of articles to process. *)
Theorem completion_requests_bounded (cfg : config) (w : world) :
  0 ≤ NUM_ARTICLES_TO_PROCESS cfg →
  Z.of_nat (llm_calls (trace (main cfg w))) ≤ NUM_ARTICLES_TO_PROCESS cfg.
Proof.
  intros Hnum.
  assert (Hfetch : llm_calls (trace (fetch_articles cfg w)) = 0%nat).
  { unfold llm_calls. by rewrite fetch_no_calls. }
  destruct (main_cases cfg w)
    as [[-> _]|(articles & items & filtered & _ & _ & _ & _ & _ & -> & _)].
  - rewrite Hfetch. lia.
  - destruct (process_loop_requests (completion w)
                (slice_to (NUM_ARTICLES_TO_PROCESS cfg) filtered) 0 [])
      as (k & -> & _).
    rewrite !llm_calls_app, Hfetch, llm_calls_requests, length_take.
    destruct (slice_to_nonneg (NUM_ARTICLES_TO_PROCESS cfg) filtered Hnum)
      as (_ & Hle & _).
    assert (llm_calls match outcome (process_loop (completion w) 0
                         (slice_to (NUM_ARTICLES_TO_PROCESS cfg) filtered) [])
                      with
                      | Ok records => [WriteOutputFile records]
                      | Raise _ => []
                      end = 0%nat) as -> by (by destruct (outcome _)).
    lia.
Qed.

Lemma completion_requests_bounded_witness :
  Z.of_nat
    (llm_calls
       (trace (main {| NDH_API_KEY := ""; OPENAI_API_KEY := "sk-demo";
                       MIN_CONTENT_LENGTH := 300;
                       NUM_ARTICLES_TO_PROCESS := 1 |}
                 (demo_world (PList [long_article; other_long_article])))))
  ≤ 1.
Proof.
  apply (completion_requests_bounded
           {| NDH_API_KEY := ""; OPENAI_API_KEY := "sk-demo";
              MIN_CONTENT_LENGTH := 300; NUM_ARTICLES_TO_PROCESS := 1 |}).
  simpl. lia.
Defined.

(** X7. The output file is written at most once, and the write is the
    last thing the script does to the outside world: every completion
    request of the run comes before it. *)
Theorem output_written_last (cfg : config) (w : world)
    (records : list summary_record) :
  output_file (trace (main cfg w)) = Some records →
  ∃ before,
    trace (main cfg w) = before ++ [WriteOutputFile records]
    ∧ Forall (λ e, is_output_write e = false) before.
Proof.
  intros Hout.
  apply main_written in Hout
    as (articles & items & filtered & _ & _ & _ & _ & -> & _).
  eexists. rewrite app_assoc. split; [reflexivity|].
  apply Forall_app. split.
  - eapply Forall_impl; [apply fetch_trace_quiet|]. by intros e [? ?].
  - apply Forall_fmap, Forall_true. done.
Qed.

Lemma output_written_last_witness :
  ∃ records before,
    trace (main demo_config (demo_world (PList [long_article])))
    = before ++ [WriteOutputFile records]
    ∧ Forall (λ e, is_output_write e = false) before.
Proof.
  eexists.
  apply (output_written_last demo_config (demo_world (PList [long_article]))).
  vm_compute. reflexivity.
Defined.

(** X8. The script ends normally exactly when it wrote the output file
    and every record written can be shown by the report: its published
    field can be cut to ten characters, and its topics are false or can
    be joined. *)
Theorem normal_end_iff_reportable (cfg : config) (w : world) :
  outcome (main cfg w) = Ok ()
  ↔ ∃ records,
      output_file (trace (main cfg w)) = Some records
      ∧ forallb reportable records = true.
Proof.
  split.
  - intros Hend.
    destruct (main_cases cfg w)
      as [[_ [e He]]|(articles & items & filtered & _ & _ & _ & _ & _
                      & Htrace & Hout)]; [congruence|].
    destruct (process_loop_requests (completion w)
                (slice_to (NUM_ARTICLES_TO_PROCESS cfg) filtered) 0 [])
      as (_ & _ & Hall).
    destruct (outcome (process_loop _ _ _ _)) as [records|e];
      [|congruence].
    exists records. split.
    + rewrite Htrace, (Hall records eq_refl), !output_file_app. done.
    + pose proof (report_cases records) as Hreport.
      rewrite <- Hout, Hend in Hreport. done.
  - intros (records & Hout & Hall).
    apply main_written in Hout
      as (articles & items & filtered & _ & _ & _ & _ & _ & ->).
    pose proof (report_cases records) as Hreport.
    destruct (report records) as [[]|e]; [done|].
    destruct Hreport as [Hbad _]. congruence.
Qed.

Lemma normal_end_iff_reportable_witness :
  ∃ records,
    output_file
      (trace (main demo_config
                (demo_world (PList [long_article; other_long_article]))))
    = Some records
    ∧ forallb reportable records = true.
Proof.
  apply (proj1 (normal_end_iff_reportable demo_config
                  (demo_world (PList [long_article; other_long_article])))).
  vm_compute. reflexivity.
Defined.

(** X9. A run that writes its output has sent one completion request
    per record, in the order of the filtered articles, each carrying the
    article's content and its title (the empty string for a missing
    title). *)
Theorem requests_follow_articles (cfg : config) (w : world)
    (records : list summary_record) :
  output_file (trace (main cfg w)) = Some records →
  ∃ articles items filtered,
    outcome (fetch_articles cfg w) = Ok articles
    ∧ py_iter articles = Ok items
    ∧ filter_articles (MIN_CONTENT_LENGTH cfg) items = Ok filtered
    ∧ List.filter is_completion (trace (main cfg w))
      = request_of <$> slice_to (NUM_ARTICLES_TO_PROCESS cfg) filtered
    ∧ llm_calls (trace (main cfg w)) = length records.
Proof.
  intros Hout.
  apply main_written in Hout
    as (articles & items & filtered & Hfetch & Hiter & Hfilter & Hloop
        & Htrace & _).
  exists articles, items, filtered.
  assert (Hcalls : List.filter is_completion (trace (main cfg w))
                   = request_of
                     <$> slice_to (NUM_ARTICLES_TO_PROCESS cfg) filtered).
  { rewrite Htrace, !List.filter_app, fetch_no_calls,
      requests_are_completions.
    simpl. by rewrite app_nil_r. }
  repeat split; try done.
  unfold llm_calls. rewrite Hcalls, length_fmap.
  apply process_loop_ok in Hloop as (new & -> & Hall).
  by apply Forall2_length in Hall.
Qed.

Lemma requests_follow_articles_witness :
  ∃ records,
    output_file
      (trace (main demo_config
                (demo_world (PList [long_article; other_long_article]))))
    = Some records
    ∧ llm_calls
        (trace (main demo_config
                  (demo_world (PList [long_article; other_long_article]))))
      = length records.
Proof.
  eexists. split; [vm_compute; reflexivity|].
  destruct (requests_follow_articles demo_config
              (demo_world (PList [long_article; other_long_article])) _
              eq_refl)
    as (_ & _ & _ & _ & _ & _ & _ & Hcalls).
  exact Hcalls.
Defined.

Lemma truthy_len_positive v n :
  truthy v = true → py_len v = Ok n → 1 ≤ n.
Proof.
  destruct v as [| | | |s|l|d]; simpl; try discriminate.
  - destruct s; simpl; [discriminate|]. intros _ [= <-]. lia.
  - destruct l; simpl; [discriminate|]. intros _ [= <-]. lia.
  - destruct (size d); simpl; [discriminate|]. intros _ [= <-]. lia.
Qed.

Lemma assembled_from_passed min_len article r :
  passed min_len article → assembled_from article r →
  min_len ≤ r_original_content_length r
  ∧ 1 ≤ r_original_content_length r.
Proof.
  intros (d & n & -> & Htrue & Hlen & Hmin) [summary Hr].
  rewrite (create_summary_output_dict d summary n Hlen) in Hr.
  injection Hr as <-. simpl. split; [done|].
  by eapply truthy_len_positive.
Qed.

Lemma assembled_all_passed min_len articles records :
  Forall (passed min_len) articles →
  Forall2 assembled_from articles records →
  Forall (λ r, min_len ≤ r_original_content_length r
               ∧ 1 ≤ r_original_content_length r) records.
Proof.
  intros Hpassed Hall. revert Hpassed.
  induction Hall as [|a r l new Har _ IH]; intros Hpassed; [constructor|].
  inversion Hpassed as [|? ? Ha Hpassed']; subst.
  constructor; [by eapply assembled_from_passed|by apply IH].
Qed.

(** X10. Every record written carries an original content length that
    is positive and at least the configured minimum. *)
Theorem records_reach_threshold (cfg : config) (w : world)
    (records : list summary_record) :
  output_file (trace (main cfg w)) = Some records →
  Forall (λ r, MIN_CONTENT_LENGTH cfg ≤ r_original_content_length r
               ∧ 1 ≤ r_original_content_length r) records.
Proof.
  intros Hout.
  apply main_written in Hout
    as (articles & items & filtered & _ & _ & Hfilter & Hloop & _).
  apply process_loop_ok in Hloop as (new & -> & Hall).
  apply filter_articles_kept in Hfilter as [_ Hpassed].
  destruct (slice_to_take (NUM_ARTICLES_TO_PROCESS cfg) filtered) as [m Hm].
  rewrite Hm in Hall.
  eapply assembled_all_passed; [|exact Hall]. by apply Forall_take.
Qed.

Lemma records_reach_threshold_witness :
  ∃ records,
    output_file (trace (main demo_config (demo_world (PList [long_article]))))
    = Some records
    ∧ Forall (λ r, 300 ≤ r_original_content_length r
                   ∧ 1 ≤ r_original_content_length r) records.
Proof.
  eexists. split; [vm_compute; reflexivity|].
  apply (records_reach_threshold demo_config
           (demo_world (PList [long_article]))).
  reflexivity.
Defined.

(** X11. When one of the articles to process has a title that cannot be
    cut for the progress line (null, a number, a boolean or a mapping),
    the run ends in a [TypeError] and no output file is written, also
    not for the articles summarised before it. *)
Theorem unsliceable_title_aborts (cfg : config) (w : world)
    (articles : pyval) (items filtered : list pyval) :
  outcome (fetch_articles cfg w) = Ok articles →
  py_iter articles = Ok items →
  filter_articles (MIN_CONTENT_LENGTH cfg) items = Ok filtered →
  openai_key_missing cfg = false →
  forallb title_sliceable (slice_to (NUM_ARTICLES_TO_PROCESS cfg) filtered)
  = false →
  output_file (trace (main cfg w)) = None
  ∧ ∃ msg, outcome (main cfg w) = Raise (Exn TypeError msg).
Proof.
  intros Hfetch Hiter Hfilter Hkey Hbad.
  assert (Hpassed : Forall (passed (MIN_CONTENT_LENGTH cfg))
                      (slice_to (NUM_ARTICLES_TO_PROCESS cfg) filtered)).
  { apply filter_articles_kept in Hfilter as [_ Hall].
    destruct (slice_to_take (NUM_ARTICLES_TO_PROCESS cfg) filtered)
      as [m ->].
    by apply Forall_take. }
  destruct (process_loop_bad_title (completion w) (MIN_CONTENT_LENGTH cfg)
              _ 0 [] Hpassed Hbad) as [msg Hloop].
  assert (Hnonempty : Nat.eqb (length filtered) 0 = false).
  { destruct filtered; [|done].
    unfold slice_to in Hbad.
    destruct (0 <=? _); rewrite take_nil in Hbad; discriminate. }
  destruct (process_late cfg w articles items filtered Hiter Hfilter
              Hnonempty Hkey) as [Htrace Hend].
  rewrite Hloop in Htrace, Hend.
  destruct (process_loop_requests (completion w)
              (slice_to (NUM_ARTICLES_TO_PROCESS cfg) filtered) 0 [])
    as (k & Hk & _).
  unfold main. rewrite trace_bind, outcome_bind, Hfetch, Htrace, Hend, Hk.
  split; [|eauto].
  rewrite app_nil_r, output_file_app, requests_no_output.
  apply fetch_no_output.
Qed.

Lemma unsliceable_title_aborts_witness :
  output_file
    (trace (main demo_config
              (demo_world
                 (PList [long_article;
                         article_of [("title", PNone);
                                     ("content", PStr (text_of_length 300))]]))))
  = None.
Proof.
  apply (unsliceable_title_aborts demo_config
           (demo_world
              (PList [long_article;
                      article_of [("title", PNone);
                                  ("content", PStr (text_of_length 300))]]))
           (PList [long_article;
                   article_of [("title", PNone);
                               ("content", PStr (text_of_length 300))]])
           [long_article;
            article_of [("title", PNone);
                        ("content", PStr (text_of_length 300))]]
           [long_article;
            article_of [("title", PNone);
                        ("content", PStr (text_of_length 300))]]);
    vm_compute; reflexivity.
Defined.





Lemma without_summary_metadata (records : list summary_record) :
  ∀ records' : list summary_record,
  metadata <$> records = metadata <$> records' →
  without_summary <$> records = without_summary <$> records'.
Proof.
  induction records as [|r rest IH]; intros [|r' rest'] Hsame;
    try discriminate; [done|].
  rewrite !fmap_cons in Hsame.
  injection Hsame as Hid Htitle Hsource Hpub Hurl Hlang Htopics Hlen Hrest.
  rewrite !fmap_cons, (IH rest' Hrest). unfold without_summary.
  by rewrite Hid, Htitle, Hsource, Hpub, Hurl, Hlang, Htopics, Hlen.
Qed.

Lemma process_oracle cfg w llm' articles :
  blank_summaries <$> trace (process cfg (with_completion llm' w) articles)
  = blank_summaries <$> trace (process cfg w articles)
  ∧ outcome (process cfg (with_completion llm' w) articles)
    = outcome (process cfg w articles).
Proof.
  destruct (py_iter articles) as [items|e] eqn:Hiter;
    [|unfold process; by rewrite Hiter, !lift_bind].
  destruct (filter_articles (MIN_CONTENT_LENGTH cfg) items)
    as [filtered|e] eqn:Hfilter;
    [|unfold process; rewrite Hiter, !lift_bind; cbv beta iota;
      by rewrite Hfilter].
  destruct (Nat.eqb (length filtered) 0) eqn:Hne;
    [by rewrite !(process_filtered cfg _ articles items filtered Hiter Hfilter),
       Hne|].
  destruct (openai_key_missing cfg) eqn:Hkey;
    [by rewrite !(process_filtered cfg _ articles items filtered Hiter Hfilter),
       Hne, Hkey|].
  destruct (process_late cfg w articles items filtered Hiter Hfilter Hne Hkey)
    as [-> ->].
  destruct (process_late cfg (with_completion llm' w) articles items filtered
              Hiter Hfilter Hne Hkey) as [-> ->].
  simpl completion.
  destruct (process_loop_oracle llm' (completion w)
              (slice_to (NUM_ARTICLES_TO_PROCESS cfg) filtered) 0 [] [] eq_refl)
    as [Htrace Hout].
  rewrite Htrace.
  destruct (outcome (process_loop llm' _ _ _)) as [records'|e'],
           (outcome (process_loop (completion w) _ _ _)) as [records|e];
    try done.
  - split.
    + rewrite !fmap_app. simpl.
      by rewrite (without_summary_metadata records' records Hout).
    + by apply report_metadata.
  - by subst.
Qed.

(** X13. The answers of the completion endpoint change nothing but the
    summary texts: with any other endpoint the run makes the same
    requests in the same order, writes records that agree in every
    other field, and ends the same way. *)
Theorem answers_change_summaries_only (cfg : config) (w : world)
    (llm' : nat → pyval → pyval → reply) :
  blank_summaries <$> trace (main cfg (with_completion llm' w))
  = blank_summaries <$> trace (main cfg w)
  ∧ outcome (main cfg (with_completion llm' w)) = outcome (main cfg w).
Proof.
  unfold main. rewrite !trace_bind, !outcome_bind.
  change (fetch_articles cfg (with_completion llm' w))
    with (fetch_articles cfg w).
  destruct (outcome (fetch_articles cfg w)) as [articles|e]; [|done].
  destruct (process_oracle cfg w llm' articles) as [Htrace Hout].
  by rewrite !fmap_app, Htrace, Hout.
Qed.

(** ** Loading: the live endpoint and the sample file *)

Lemma main_fetch_raises cfg w t e :
  fetch_articles cfg w = (t, Raise e) → main cfg w = (t, Raise e).
Proof. intros Hfetch. unfold main. by rewrite Hfetch. Qed.

Lemma main_fetch_returns cfg w t articles :
  fetch_articles cfg w = (t, Ok articles) →
  main cfg w
  = (t ++ trace (process cfg w articles), outcome (process cfg w articles)).
Proof. intros Hfetch. unfold main. by rewrite Hfetch, bind_ok. Qed.

Lemma fetch_live cfg w :
  ndh_key_provided cfg = true →
  fetch_articles cfg w
  = ([HttpGetNews (NDH_API_KEY cfg)],
     data ← news_api w;
     articles ← py_get data "data" (PList []);
     _ ← py_len articles;
     Ok articles).
Proof.
  intros Hkey. unfold fetch_articles. rewrite Hkey.
  unfold emit, lift, mbind, script_bind, result_bind, mret, script_ret.
  destruct (news_api w) as [data|e]; [|done].
  destruct (py_get data "data" (PList [])) as [articles|e]; [|done].
  by destruct (py_len articles).
Qed.

Lemma process_trace_kinds cfg w articles :
  Forall (λ e, is_sample_event e = false ∧ is_news_get e = false)
         (trace (process cfg w articles)).
Proof.
  destruct (process_cases cfg w articles)
    as [[-> _]|(items & filtered & Hiter & Hfilter & Hne & Hkey)];
    [constructor|].
  destruct (process_late cfg w articles items filtered Hiter Hfilter Hne Hkey)
    as [-> _].
  apply Forall_app. split.
  - eapply Forall_impl; [apply process_loop_trace|].
    by intros [] ?.
  - destruct (outcome _); repeat constructor.
Qed.

(** X14. With a NewsDataHub key set, the script asks the news endpoint
    once, first, with that key, and never touches the sample data: no
    download, no sample file created, written or read. *)
Theorem live_run_skips_sample (cfg : config) (w : world) :
  ndh_key_provided cfg = true →
  ∃ rest, trace (main cfg w) = HttpGetNews (NDH_API_KEY cfg) :: rest
          ∧ Forall (λ e, is_sample_event e = false ∧ is_news_get e = false)
                   rest.
Proof.
  intros Hkey. pose proof (fetch_live cfg w Hkey) as Hfetch.
  destruct (mbind _ (news_api w)) as [articles|e] in Hfetch.
  - rewrite (main_fetch_returns cfg w _ articles Hfetch).
    eexists. split; [reflexivity|]. apply process_trace_kinds.
  - rewrite (main_fetch_raises cfg w _ e Hfetch).
    eexists. split; [reflexivity|constructor].
Qed.

Lemma live_run_skips_sample_witness :
  ∃ rest,
    trace (main (with_ndh_key "ndh-demo" demo_config)
             (demo_world (PList [long_article])))
    = HttpGetNews "ndh-demo" :: rest
    ∧ Forall (λ e, is_sample_event e = false ∧ is_news_get e = false) rest.
Proof.
  apply (live_run_skips_sample (with_ndh_key "ndh-demo" demo_config)
           (demo_world (PList [long_article]))).
  reflexivity.
Defined.

(** X15. A failure of the news request (network, HTTP status, body that
    is not JSON) ends the run with that exception: the request is not
    repeated and the sample data is not used instead. *)
Theorem news_failure_is_fatal (cfg : config) (w : world) (e : exn) :
  ndh_key_provided cfg = true →
  news_api w = Raise e →
  main cfg w = ([HttpGetNews (NDH_API_KEY cfg)], Raise e).
Proof.
  intros Hkey Hnews. apply main_fetch_raises.
  rewrite (fetch_live cfg w Hkey), Hnews. done.
Qed.

Lemma news_failure_is_fatal_witness :
  main (with_ndh_key "ndh-demo" demo_config) (demo_world (PList [long_article]))
  = ([HttpGetNews "ndh-demo"],
     Raise (Exn ExternalError "connection refused")).
Proof.
  apply (news_failure_is_fatal (with_ndh_key "ndh-demo" demo_config)
           (demo_world (PList [long_article]))); reflexivity.
Defined.

(** X16. A response of the news endpoint that is an object without a
    [data] key counts as no articles: the run ends in [exit(1)] at the
    empty-filter check, not in an error about the response. *)
Theorem response_without_data_exits (cfg : config) (w : world)
    (d : gmap string pyval) :
  ndh_key_provided cfg = true →
  news_api w = Ok (PDict d) →
  d !! "data" = None →
  main cfg w = ([HttpGetNews (NDH_API_KEY cfg)], Raise (SystemExit 1)).
Proof.
  intros Hkey Hnews Hdata.
  rewrite (main_fetch_returns cfg w [HttpGetNews (NDH_API_KEY cfg)]
             (PList [])).
  - reflexivity.
  - rewrite (fetch_live cfg w Hkey), Hnews. simpl. by rewrite Hdata.
Qed.

Lemma response_without_data_exits_witness :
  main (with_ndh_key "ndh-demo" demo_config)
    {| news_api := Ok (PDict {[ "status" := PStr "ok" ]});
       sample_on_disk := None;
       sample_download := Raise (Exn ExternalError "offline");
       completion := λ _ _ _, CallReturns [] |}
  = ([HttpGetNews "ndh-demo"], Raise (SystemExit 1)).
Proof.
  apply (response_without_data_exits (with_ndh_key "ndh-demo" demo_config)
           {| news_api := Ok (PDict {[ "status" := PStr "ok" ]});
              sample_on_disk := None;
              sample_download := Raise (Exn ExternalError "offline");
              completion := λ _ _ _, CallReturns [] |}
           {[ "status" := PStr "ok" ]});
    reflexivity.
Defined.

(** X17. The news endpoint must answer with an object: a bare list of
    articles, which the sample loader accepts, makes the live branch
    raise [AttributeError]. *)
Theorem live_bare_list_raises (cfg : config) (w : world) (l : list pyval) :
  ndh_key_provided cfg = true →
  news_api w = Ok (PList l) →
  load_sample_data (PList l) = Ok (PList l)
  ∧ main cfg w
    = ([HttpGetNews (NDH_API_KEY cfg)],
       Raise (Exn AttributeError "'list' object has no attribute 'get'")).
Proof.
  intros Hkey Hnews. split; [done|].
  apply main_fetch_raises.
  rewrite (fetch_live cfg w Hkey), Hnews. done.
Qed.

Lemma live_bare_list_raises_witness :
  main (with_ndh_key "ndh-demo" demo_config)
    {| news_api := Ok (PList [long_article]);
       sample_on_disk := None;
       sample_download := Raise (Exn ExternalError "offline");
       completion := λ _ _ _, CallReturns [] |}
  = ([HttpGetNews "ndh-demo"],
     Raise (Exn AttributeError "'list' object has no attribute 'get'")).
Proof.
  apply (live_bare_list_raises (with_ndh_key "ndh-demo" demo_config)
           {| news_api := Ok (PList [long_article]);
              sample_on_disk := None;
              sample_download := Raise (Exn ExternalError "offline");
              completion := λ _ _ _, CallReturns [] |}
           [long_article]);
    reflexivity.
Defined.

Lemma fetch_sample_present cfg w parsed :
  ndh_key_provided cfg = false →
  sample_on_disk w = Some parsed →
  fetch_articles cfg w
  = ([ReadSampleFile],
     data ← parsed;
     articles ← load_sample_data data;
     _ ← py_len articles;
     Ok articles).
Proof.
  intros Hkey Hdisk. unfold fetch_articles. rewrite Hkey, Hdisk.
  unfold emit, lift, mbind, script_bind, result_bind, mret, script_ret.
  destruct parsed as [data|e]; [|done].
  destruct (load_sample_data data) as [articles|e]; [|done].
  by destruct (py_len articles).
Qed.

(** X18. Without a NewsDataHub key and with the sample file on disk,
    loading makes no network request and does not rewrite the file: it
    only reads it.  A file that does not parse ends the run with the
    parser's exception; it is not downloaded again. *)
Theorem cached_sample_is_only_read (cfg : config) (w : world)
    (parsed : result pyval) :
  ndh_key_provided cfg = false →
  sample_on_disk w = Some parsed →
  trace (fetch_articles cfg w) = [ReadSampleFile]
  ∧ match parsed with
    | Raise e => main cfg w = ([ReadSampleFile], Raise e)
    | Ok data =>
        outcome (fetch_articles cfg w)
        = (articles ← load_sample_data data; _ ← py_len articles; Ok articles)
    end.
Proof.
  intros Hkey Hdisk.
  pose proof (fetch_sample_present cfg w parsed Hkey Hdisk) as Hfetch.
  split; [by rewrite Hfetch|].
  destruct parsed as [data|e].
  - by rewrite Hfetch.
  - by apply main_fetch_raises.
Qed.

Lemma cached_sample_is_only_read_witness :
  trace (fetch_articles source_config (demo_world (PList [long_article])))
  = [ReadSampleFile].
Proof.
  apply (cached_sample_is_only_read source_config
           (demo_world (PList [long_article])) (Ok (PList [long_article])));
    reflexivity.
Defined.

(** X19. Without a NewsDataHub key and without the sample file, the
    script downloads the sample once.  If the request fails nothing is
    created; if the body is not JSON the run ends with the parser's
    exception after the file was created, so an empty file stays behind;
    otherwise the data is written to the file and the file is read. *)
Theorem sample_bootstrap (cfg : config) (w : world) :
  ndh_key_provided cfg = false →
  sample_on_disk w = None →
  match sample_download w with
  | Raise e => main cfg w = ([HttpGetSample], Raise e)
  | Ok (Raise e) => main cfg w = ([HttpGetSample; CreateSampleFile], Raise e)
  | Ok (Ok data) =>
      trace (fetch_articles cfg w)
      = [HttpGetSample; CreateSampleFile; WriteSampleFile data; ReadSampleFile]
  end.
Proof.
  intros Hkey Hdisk.
  destruct (sample_download w) as [[data|e]|e] eqn:Hdown.
  - unfold fetch_articles. rewrite Hkey, Hdisk, Hdown.
    unfold emit, lift, mbind, script_bind, result_bind, mret, script_ret,
      trace, outcome.
    destruct (load_sample_data data) as [articles|e]; [|done].
    by destruct (py_len articles).
  - apply main_fetch_raises. unfold fetch_articles.
    by rewrite Hkey, Hdisk, Hdown.
  - apply main_fetch_raises. unfold fetch_articles.
    by rewrite Hkey, Hdisk, Hdown.
Qed.

Lemma sample_bootstrap_witness :
  main source_config
    {| news_api := Raise (Exn ExternalError "offline");
       sample_on_disk := None;
       sample_download := Ok (Raise (Exn ExternalError "Expecting value"));
       completion := λ _ _ _, CallReturns [] |}
  = ([HttpGetSample; CreateSampleFile],
     Raise (Exn ExternalError "Expecting value")).
Proof.
  apply (sample_bootstrap source_config
           {| news_api := Raise (Exn ExternalError "offline");
              sample_on_disk := None;
              sample_download := Ok (Raise (Exn ExternalError "Expecting value"));
              completion := λ _ _ _, CallReturns [] |});
    reflexivity.
Defined.

(** X20. The OpenAI key is looked at only after loading: with a
    NewsDataHub key set and the OpenAI key missing, the news request is
    still made, and it is the only thing the run does before it ends
    with an exception. *)
Theorem openai_key_checked_after_fetch (cfg : config) (w : world) :
  ndh_key_provided cfg = true →
  openai_key_missing cfg = true →
  trace (main cfg w) = [HttpGetNews (NDH_API_KEY cfg)]
  ∧ ∃ e, outcome (main cfg w) = Raise e.
Proof.
  intros Hndh Hopenai.
  destruct (main_cases cfg w)
    as [[-> He]|(_ & _ & _ & _ & _ & _ & _ & Hkey & _)]; [|congruence].
  split; [|done]. by rewrite (fetch_live cfg w Hndh).
Qed.

Lemma openai_key_checked_after_fetch_witness :
  trace (main (with_ndh_key "ndh-demo" source_config)
           (demo_world (PList [long_article])))
  = [HttpGetNews "ndh-demo"].
Proof.
  apply (openai_key_checked_after_fetch
           (with_ndh_key "ndh-demo" source_config)
           (demo_world (PList [long_article]))); reflexivity.
Defined.

(** ** What exactly is written *)

Lemma process_loop_aligned llm articles : ∀ i acc records,
  outcome (process_loop llm i articles acc) = Ok records →
  ∃ new,
    records = acc ++ new
    ∧ length new = length articles
    ∧ ∀ k a,
        articles !! k = Some a →
        ∃ r summary,
          new !! k = Some r
          ∧ outcome (summarize_article (llm (i + k)%nat)
                       (field_or a "content" (PStr ""))
                       (field_or a "title" (PStr ""))) = Ok summary
          ∧ create_summary_output a summary = Ok r.
Proof.
  induction articles as [|a rest IH]; intros i acc records Hrun.
  - injection Hrun as <-. exists []. rewrite app_nil_r.
    repeat split; done.
  - destruct a as [| | | | | |d];
      try (cbn [process_loop] in Hrun; rewrite lift_bind in Hrun; discriminate).
    rewrite process_loop_dict in Hrun.
    destruct (py_slice_to _ 60); [|discriminate].
    destruct (summarize_article_run (llm i) (default (PStr "") (d !! "content"))
                (default (PStr "") (d !! "title"))) as (summary & Hs & _).
    rewrite Hs, bind_ok, lift_bind in Hrun.
    destruct (create_summary_output (PDict d) summary) as [output|e] eqn:Hout;
      [|discriminate].
    unfold outcome at 1 in Hrun. cbn [snd] in Hrun.
    apply IH in Hrun as (new & -> & Hlen & Hnth).
    exists (output :: new). rewrite <- app_assoc.
    split; [done|]. split; [simpl; by rewrite Hlen|].
    intros [|k] a' Hk; simpl in Hk.
    + injection Hk as <-. exists output, summary.
      rewrite Nat.add_0_r. simpl field_or. by rewrite Hs.
    + destruct (Hnth k a' Hk) as (r & s & Hr & Hsum & Hcreate).
      exists r, s. rewrite <- Nat.add_succ_comm. done.
Qed.

(** X21. The number of records written is exactly the smaller of the
    configured count and the number of articles the filter kept. *)
Theorem record_count_exact (cfg : config) (w : world)
    (records : list summary_record) :
  0 ≤ NUM_ARTICLES_TO_PROCESS cfg →
  output_file (trace (main cfg w)) = Some records →
  ∃ articles items filtered,
    outcome (fetch_articles cfg w) = Ok articles
    ∧ py_iter articles = Ok items
    ∧ filter_articles (MIN_CONTENT_LENGTH cfg) items = Ok filtered
    ∧ Z.of_nat (length records)
      = Z.min (NUM_ARTICLES_TO_PROCESS cfg) (Z.of_nat (length filtered)).
Proof.
  intros Hnum Hout.
  apply main_written in Hout
    as (articles & items & filtered & Hfetch & Hiter & Hfilter & Hloop & _).
  exists articles, items, filtered. repeat split; try done.
  apply process_loop_aligned in Hloop as (new & -> & Hlen & _).
  simpl. rewrite Hlen.
  destruct (slice_to_nonneg (NUM_ARTICLES_TO_PROCESS cfg) filtered Hnum)
    as (-> & _ & _).
  rewrite length_take. lia.
Qed.

Lemma record_count_exact_witness :
  ∃ records,
    output_file
      (trace (main demo_config
                (demo_world
                   (PList [long_article; short_article; other_long_article]))))
    = Some records
    ∧ Z.of_nat (length records) = 2.
Proof.
  eexists. split; [vm_compute; reflexivity|].
  destruct (record_count_exact demo_config
              (demo_world
                 (PList [long_article; short_article; other_long_article])) _
              ltac:(simpl; lia) eq_refl)
    as (articles & items & filtered & Hfetch & Hiter & Hfilter & Hcount).
  vm_compute in Hfetch. injection Hfetch as <-.
  vm_compute in Hiter. injection Hiter as <-.
  vm_compute in Hfilter. injection Hfilter as <-.
  exact Hcount.
Defined.

(** X22. In a run that writes its output, the k-th record is what the
    assembler makes of the k-th article to process and of the
    summariser's result for the k-th completion request: records,
    articles and answers stay aligned. *)
Theorem records_aligned_with_answers (cfg : config) (w : world)
    (records : list summary_record) :
  output_file (trace (main cfg w)) = Some records →
  ∃ articles items filtered,
    outcome (fetch_articles cfg w) = Ok articles
    ∧ py_iter articles = Ok items
    ∧ filter_articles (MIN_CONTENT_LENGTH cfg) items = Ok filtered
    ∧ ∀ k a,
        slice_to (NUM_ARTICLES_TO_PROCESS cfg) filtered !! k = Some a →
        ∃ r summary,
          records !! k = Some r
          ∧ outcome (summarize_article (completion w k)
                       (field_or a "content" (PStr ""))
                       (field_or a "title" (PStr ""))) = Ok summary
          ∧ create_summary_output a summary = Ok r.
Proof.
  intros Hout.
  apply main_written in Hout
    as (articles & items & filtered & Hfetch & Hiter & Hfilter & Hloop & _).
  exists articles, items, filtered. repeat split; try done.
  apply process_loop_aligned in Hloop as (new & -> & _ & Hnth).
  exact Hnth.
Qed.

Lemma records_aligned_with_answers_witness :
  ∃ records r,
    output_file
      (trace (main demo_config
                (demo_world (PList [long_article; other_long_article]))))
    = Some records
    ∧ records !! 1%nat = Some r
    ∧ create_summary_output other_long_article "A short summary." = Ok r.
Proof.
  destruct (records_aligned_with_answers demo_config
              (demo_world (PList [long_article; other_long_article])) _
              eq_refl)
    as (articles & items & filtered & Hfetch & Hiter & Hfilter & Hnth).
  vm_compute in Hfetch. injection Hfetch as <-.
  vm_compute in Hiter. injection Hiter as <-.
  vm_compute in Hfilter. injection Hfilter as <-.
  destruct (Hnth 1%nat other_long_article eq_refl)
    as (r & summary & Hr & Hsum & Hcreate).
  injection Hsum as <-.
  eexists _, r. split; [reflexivity|]. split; [exact Hr|exact Hcreate].
Defined.
